(** * tkloud: the word-cloud form of [app.pyw]

    A shallow embedding of the validation, configuration and submission
    code of [app.pyw], and the properties of that code.

    Python strings are modelled by [string]: sequences of the 256 code
    points of Latin-1.  Text over larger code points is outside the model.
    Python integers are [Z].  A Python [set] of strings is a [gset string]. *)

From Stdlib Require Import ZArith Ascii String.
From stdpp Require Import base numbers strings list gmap pretty.

Local Open Scope Z_scope.

(** ** The Python built-ins used by the program *)

Module Py.

(** [ord(ch)] *)
Definition ord (c : ascii) : Z := Z.of_N (N_of_ascii c).

(** [ch.isspace()] on a single character, by the white space of the
    Unicode database below code point 256: the controls 9 to 13 and 28 to
    31, the space 32, the next-line control 133 and the no-break space
    160. *)
Definition isspace (c : ascii) : bool :=
  let n := ord c in
  ((9 <=? n) && (n <=? 13)) || ((28 <=? n) && (n <=? 32))
  || (n =? 133) || (n =? 160).

(** Truth value of a string: [not s] holds for the empty string only. *)
Definition truthy (s : string) : bool :=
  match s with "" => false | String _ _ => true end.

Fixpoint all_space (s : string) : bool :=
  match s with
  | "" => true
  | String c r => isspace c && all_space r
  end.

(** [s.isspace()]: at least one character, and all of them white space. *)
Definition str_isspace (s : string) : bool := truthy s && all_space s.

Fixpoint lstrip (s : string) : string :=
  match s with
  | "" => ""
  | String c r => if isspace c then lstrip r else s
  end.

Fixpoint rstrip (s : string) : string :=
  match s with
  | "" => ""
  | String c r =>
      match rstrip r with
      | "" => if isspace c then "" else String c ""
      | r' => String c r'
      end
  end.

(** [s.strip()] *)
Definition strip (s : string) : string := rstrip (lstrip s).

(** [s.split(sep)] for a separator of one character. *)
Fixpoint split (sep : ascii) (s : string) : list string :=
  match s with
  | "" => [""]
  | String c r =>
      if decide (c = sep) then "" :: split sep r
      else match split sep r with
           | h :: t => String c h :: t
           | [] => [String c ""]
           end
  end.

(** [ch * n] *)
Fixpoint repeat (n : nat) (ch : ascii) : string :=
  match n with
  | O => ""
  | S n' => String ch (repeat n' ch)
  end.

(** [sep.join(pieces)] *)
Fixpoint join (sep : string) (pieces : list string) : string :=
  match pieces with
  | [] => ""
  | [piece] => piece
  | piece :: rest => piece +:+ sep +:+ join sep rest
  end.

(** [ch in s] *)
Fixpoint contains (ch : ascii) (s : string) : bool :=
  match s with
  | "" => false
  | String c r => bool_decide (c = ch) || contains ch r
  end.

(** [s.rfind(ch)]: the last index of [ch], or -1. *)
Fixpoint rfind (ch : ascii) (s : string) : Z :=
  match s with
  | "" => -1
  | String c r =>
      let i := rfind ch r in
      if 0 <=? i then i + 1 else if decide (c = ch) then 0 else -1
  end.

(** The slice [s[i:]] for [0 <= i]. *)
Fixpoint drop (n : nat) (s : string) : string :=
  match n, s with
  | O, _ => s
  | S n', String _ r => drop n' r
  | S _, "" => ""
  end.

(** [os.path.basename] of [posixpath]:
    [i = p.rfind('/') + 1; return p[i:]]. *)
Definition basename (p : string) : string :=
  let i := rfind "/"%char p + 1 in
  drop (Z.to_nat i) p.

(** *** [int(s)] on a string, base 10

    White space around the literal is skipped, one sign is allowed, and
    the digits may be grouped by single underscores.  The white space
    [int] skips is not that of [isspace]: the separators 28 to 31 are
    rejected.  A literal of more digits than the interpreter's limit is
    rejected too. *)

(** [sys.int_info.default_max_str_digits] *)
Definition max_str_digits : Z := 4300.

Definition int_space (c : ascii) : bool :=
  let n := ord c in
  ((9 <=? n) && (n <=? 13)) || (n =? 32) || (n =? 133) || (n =? 160).

(** The decimal digits are the code points 48 to 57. *)
Definition digit_value (c : ascii) : option Z :=
  let n := ord c in
  if (48 <=? n) && (n <=? 57) then Some (n - 48) else None.

Fixpoint skip_int_space (s : string) : string :=
  match s with
  | "" => ""
  | String c r => if int_space c then skip_int_space r else s
  end.

Fixpoint all_int_space (s : string) : bool :=
  match s with
  | "" => true
  | String c r => int_space c && all_int_space r
  end.

(** The digit scan: [prev_us] tells that the previous character was an
    underscore, [acc] is the value and [digits] the number of the digits
    read so far.  It stops at the first character that is neither a digit
    nor an underscore and returns the value, the number of digits and the
    rest. *)
Fixpoint scan_digits (prev_us : bool) (acc digits : Z) (s : string)
  : option (Z * Z * string) :=
  match s with
  | "" => if prev_us then None else Some (acc, digits, "")
  | String c r =>
      if decide (c = "_"%char) then
        if prev_us then None else scan_digits true acc digits r
      else
        match digit_value c with
        | Some d => scan_digits false (10 * acc + d) (digits + 1) r
        | None => if prev_us then None else Some (acc, digits, s)
        end
  end.

(** The literal after the sign: it starts with a digit (so not with an
    underscore, and not empty), it has no more digits than the limit, and
    only white space follows it. *)
Definition int_magnitude (s : string) : option Z :=
  match s with
  | "" => None
  | String c _ =>
      match digit_value c with
      | None => None
      | Some _ =>
          match scan_digits false 0 0 s with
          | Some (v, digits, rest) =>
              if (digits <=? max_str_digits) && all_int_space rest
              then Some v else None
          | None => None
          end
      end
  end.

(** [int(s)]: [None] stands for the [ValueError] it raises. *)
Definition int (s : string) : option Z :=
  match skip_int_space s with
  | String "+" r => int_magnitude r
  | String "-" r => Z.opp <$> int_magnitude r
  | r => int_magnitude r
  end.

(** [str(n)] of an integer, as used by an f-string; the limit on the
    digits, which [str] has too, is not reached by the numbers the program
    prints. *)
Definition str (n : Z) : string := pretty n.

End Py.

(** ** Exceptions and results *)

(** The exceptions that can reach the code of the form.  [ValueError] is
    the one [int] raises, with the rejected literal; [TypeError] and
    [IndexError] are the interpreter's own; [LibraryError] stands for
    whatever the word-cloud library raises. *)
Inductive exception :=
| FormException (msg : string)
| ValueError (literal : string)
| TypeError (msg : string)
| IndexError
| LibraryError (msg : string).

Inductive result (A : Type) :=
| Ok (a : A)
| Raise (e : exception).
Arguments Ok {A} a.
Arguments Raise {A} e.

#[global] Instance result_ret : MRet result := @Ok.
#[global] Instance result_bind : MBind result := fun A B k m =>
  match m with
  | Ok a => k a
  | Raise e => Raise e
  end.

(** [int(s)] as a computation that may raise. *)
Definition int_ (s : string) : result Z :=
  match Py.int s with
  | Some n => Ok n
  | None => Raise (ValueError s)
  end.

(** ** Constants *)

Definition colormap_values : list string :=
  ["Accent"; "Accent_r"; "Blues"; "Blues_r"; "BrBG"; "BrBG_r"; "BuGn";
   "BuGn_r"; "BuPu"; "BuPu_r"; "CMRmap"; "CMRmap_r"; "Dark2"; "Dark2_r";
   "GnBu"; "GnBu_r"; "Greens"; "Greens_r"; "Greys"; "Greys_r"; "OrRd";
   "OrRd_r"; "Oranges"; "Oranges_r"; "PRGn"; "PRGn_r"; "Paired"; "Paired_r";
   "Pastel1"; "Pastel1_r"; "Pastel2"; "Pastel2_r"; "PiYG"; "PiYG_r"; "PuBu";
   "PuBuGn"; "PuBuGn_r"; "PuBu_r"; "PuOr"; "PuOr_r"; "PuRd"; "PuRd_r";
   "Purples"; "Purples_r"; "RdBu"; "RdBu_r"; "RdGy"; "RdGy_r"; "RdPu";
   "RdPu_r"; "RdYlBu"; "RdYlBu_r"; "RdYlGn"; "RdYlGn_r"; "Reds"; "Reds_r";
   "Set1"; "Set1_r"; "Set2"; "Set2_r"; "Set3"; "Set3_r"; "Spectral";
   "Spectral_r"; "Wistia"; "Wistia_r"; "YlGn"; "YlGnBu"; "YlGnBu_r";
   "YlGn_r"; "YlOrBr"; "YlOrBr_r"; "YlOrRd"; "YlOrRd_r"; "afmhot";
   "afmhot_r"; "autumn"; "autumn_r"; "binary"; "binary_r"; "bone"; "bone_r";
   "brg"; "brg_r"; "bwr"; "bwr_r"; "cividis"; "cividis_r"; "cool"; "cool_r";
   "coolwarm"; "coolwarm_r"; "copper"; "copper_r"; "cubehelix";
   "cubehelix_r"; "flag"; "flag_r"; "gist_earth"; "gist_earth_r";
   "gist_gray"; "gist_gray_r"; "gist_heat"; "gist_heat_r"; "gist_ncar";
   "gist_ncar_r"; "gist_rainbow"; "gist_rainbow_r"; "gist_stern";
   "gist_stern_r"; "gist_yarg"; "gist_yarg_r"; "gnuplot"; "gnuplot2";
   "gnuplot2_r"; "gnuplot_r"; "gray"; "gray_r"; "hot"; "hot_r"; "hsv";
   "hsv_r"; "inferno"; "inferno_r"; "jet"; "jet_r"; "magma"; "magma_r";
   "nipy_spectral"; "nipy_spectral_r"; "ocean"; "ocean_r"; "pink"; "pink_r";
   "plasma"; "plasma_r"; "prism"; "prism_r"; "rainbow"; "rainbow_r";
   "seismic"; "seismic_r"; "spring"; "spring_r"; "summer"; "summer_r";
   "tab10"; "tab10_r"; "tab20"; "tab20_r"; "tab20b"; "tab20b_r"; "tab20c";
   "tab20c_r"; "terrain"; "terrain_r"; "turbo"; "turbo_r"; "twilight";
   "twilight_r"; "twilight_shifted"; "twilight_shifted_r"; "viridis";
   "viridis_r"; "winter"; "winter_r"].

Definition MIN_WIDTH_IMAGE : Z := 400.
Definition MAX_WIDTH_IMAGE : Z := 3000.
Definition MIN_HEIGHT_IMAGE : Z := 200.
Definition MAX_HEIGHT_IMAGE : Z := 1500.
Definition MIN_NUM_WORDS : Z := 200.
Definition MAX_NUM_WORDS : Z := 400.

(** ** Widgets

    A widget is modelled by what the program can read from it. *)

(** A [Text] widget; [get("1.0", END)] returns its contents followed by
    the newline the widget keeps at its end. *)
Record Text := { Text_contents : string }.

Definition END_newline : string := String "010" "".

Definition Text_get (field : Text) : string :=
  Text_contents field +:+ END_newline.

Record Spinbox := { Spinbox_get : string }.

Record Combobox := { Combobox_values : list string; Combobox_get : string }.

(** [box.current(i)]: select the [i]-th of the values.  The toolkit
    raises on an index out of range; the form calls [current(0)] on a list
    that is not empty. *)
Definition Combobox_current (i : nat) (box : Combobox) : Combobox :=
  {| Combobox_values := Combobox_values box;
     Combobox_get := default (Combobox_get box) (Combobox_values box !! i) |}.

Record StringVar := { StringVar_get : string }.

(** [StringVar()] *)
Definition StringVar_new : StringVar := {| StringVar_get := "" |}.

Module FieldUtils.

Definition get_text_value (field : Text) : string :=
  Py.strip (Text_get field).

(** The argument is a [Spinbox] or a [Combobox]. *)
Definition get_box_value (field : Spinbox + Combobox) : string :=
  Py.strip (match field with
            | inl spin => Spinbox_get spin
            | inr combo => Combobox_get combo
            end).

End FieldUtils.

(** ** FieldsValidator *)

Module FieldsValidator.

Definition validate_text_content (textual_content : string) : result unit :=
  if negb (Py.truthy textual_content)
     || bool_decide (textual_content = END_newline)
  then Raise (FormException "Textual content cannot be empty.")
  else Ok tt.

Definition validate_width (width : string) : result unit :=
  if negb (Py.truthy width) then
    Raise (FormException "Width cannot be empty.")
  else
    width ← int_ width;
    if width <=? 0 then
      Raise (FormException "Width cannot be less equal to zero.")
    else if (width <? MIN_WIDTH_IMAGE) || (MAX_WIDTH_IMAGE <? width) then
      Raise (FormException
               ("Width needs to be between " +:+ Py.str MIN_WIDTH_IMAGE
                +:+ " and " +:+ Py.str MAX_WIDTH_IMAGE +:+ "."))
    else Ok tt.

Definition validate_height (height : string) : result unit :=
  if negb (Py.truthy height) then
    Raise (FormException "Height cannot be empty.")
  else
    height ← int_ height;
    if height <=? 0 then
      Raise (FormException "Height cannot be less equal to zero.")
    else if (height <? MIN_HEIGHT_IMAGE) || (MAX_HEIGHT_IMAGE <? height) then
      Raise (FormException
               ("Height needs to be between " +:+ Py.str MIN_HEIGHT_IMAGE
                +:+ " and " +:+ Py.str MAX_HEIGHT_IMAGE +:+ "."))
    else Ok tt.

Definition validate_max_words (max_words : string) : result unit :=
  if negb (Py.truthy max_words) then
    Raise (FormException "Max Words cannot be empty.")
  else
    max_words ← int_ max_words;
    if max_words <=? 0 then
      Raise (FormException "Max Words cannot be less equal to zero.")
    else if (max_words <? MIN_NUM_WORDS) || (MAX_NUM_WORDS <? max_words) then
      Raise (FormException
               ("Max words needs to be between " +:+ Py.str MIN_NUM_WORDS
                +:+ " and " +:+ Py.str MAX_NUM_WORDS +:+ "."))
    else Ok tt.

(** [path.basename(file_path).split(".")[0].isspace()] *)
Definition validate_file_path (file_path : string) : result unit :=
  if negb (Py.truthy file_path) then
    Raise (FormException "File name cannot be empty.")
  else
    match Py.split "." (Py.basename file_path) with
    | [] => Raise IndexError
    | stem :: _ =>
        if Py.str_isspace stem then
          Raise (FormException "File name cannot be empty.")
        else Ok tt
    end.

End FieldsValidator.

(** ** ImageExtensions *)

Inductive ImageExtensions := PNG | JPEG.

Definition ImageExtensions_name (e : ImageExtensions) : string :=
  match e with PNG => "PNG" | JPEG => "JPEG" end.

Definition ImageExtensions_value (e : ImageExtensions) : string :=
  match e with PNG => ".png" | JPEG => ".jpg" end.

(** ** The Image dataclass *)

(** An argument of a call that has a default: left out or passed. *)
Inductive arg (A : Type) :=
| Omitted
| Passed (a : A).
Arguments Omitted {A}.
Arguments Passed {A} a.

Module Image.

(** [stopwords] holds [None] when [None] was passed for it. *)
Record t := {
  textual_content : string;
  width : Z;
  height : Z;
  max_words : Z;
  background_color : string;
  colormap : string;
  stopwords : option (gset string);
  file_path : string
}.

(** [__post_init__], on the value the caller gave for [background_color]. *)
Definition __post_init__ (background_color : option string) : string :=
  match background_color with
  | None => "black"
  | Some color => color
  end.

(** The generated [__init__] followed by [__post_init__].  A field left
    out takes the result of calling its [default_factory]; that of
    [colormap] is the string ["Accent"], which is not callable. *)
Definition init (textual_content : string) (width height max_words : Z)
    (background_color : option string) (colormap : arg string)
    (stopwords : arg (option (gset string))) (file_path : arg string)
  : result t :=
  colormap ← match colormap with
             | Passed c => Ok c
             | Omitted => Raise (TypeError "'str' object is not callable")
             end;
  stopwords ← match stopwords with
              | Passed s => Ok s
              | Omitted => Ok (Some ∅)
              end;
  file_path ← match file_path with
              | Passed p => Ok p
              | Omitted => Ok ""
              end;
  Ok {| textual_content := textual_content;
        width := width;
        height := height;
        max_words := max_words;
        background_color := __post_init__ background_color;
        colormap := colormap;
        stopwords := stopwords;
        file_path := file_path |}.

End Image.

(** ** The arguments of the external generator *)

Module WordCloud.

Record args := {
  width : Z;
  height : Z;
  random_state : Z;
  background_color : string;
  colormap : string;
  collocations : bool;
  max_words : Z;
  stopwords : option (gset string)
}.

End WordCloud.

(** ** The form and what it does to the outside *)

Record Form := {
  _textual_content_field : Text;
  _width_field : Spinbox;
  _height_field : Spinbox;
  _max_words_field : Spinbox;
  _background_color_field : option string;
  _colormap_field : Combobox;
  _stopwords_field : Text;
  _file_path_field : StringVar
}.

Inductive FieldName :=
| TextualContent | Width | Height | MaxWords
| BackgroundColor | Colormap | Stopwords | FilePath.

#[global] Instance FieldName_eq_dec : EqDecision FieldName.
Proof. solve_decision. Defined.

(** What a run of a method does, in order: the reads of the form's
    fields, the calls of the validator, the calls of the generator and
    the dialogs. *)
Inductive Event :=
| Read (field : FieldName)
| Validate (field : FieldName)
| Generate (config : WordCloud.args) (text : string)
| ToFile (file_path : string)
| ShowError (title message : string)
| ShowInfo (title message : string).

Record Run (A : Type) := MkRun {
  run_form : Form;
  run_trace : list Event;
  run_result : result A
}.
Arguments MkRun {A} run_form run_trace run_result.
Arguments run_form {A} r.
Arguments run_trace {A} r.
Arguments run_result {A} r.

(** A method of the form: it starts from the form's state and yields the
    state it leaves, the events in the order they happened, and a value
    or the exception that escapes. *)
Definition M (A : Type) : Type := Form → Run A.

#[global] Instance M_ret : MRet M := fun A a form => MkRun form [] (Ok a).

#[global] Instance M_bind : MBind M := fun A B k m form =>
  let r := m form in
  match run_result r with
  | Ok a =>
      let r' := k a (run_form r) in
      MkRun (run_form r') (run_trace r ++ run_trace r') (run_result r')
  | Raise e => MkRun (run_form r) (run_trace r) (Raise e)
  end.

(** A pure computation that may raise, run inside a method. *)
Definition lift {A : Type} (r : result A) : M A :=
  fun form => MkRun form [] r.

Definition emit (ev : Event) : M unit :=
  fun form => MkRun form [ev] (Ok tt).

(** [self.<field>]: the read of an attribute of the form. *)
Definition attr {A : Type} (name : FieldName) (proj : Form → A) : M A :=
  fun form => MkRun form [Read name] (Ok (proj form)).

(** A call of one of the validator's functions. *)
Definition validator (name : FieldName) (check : result unit) : M unit :=
  _ ← emit (Validate name); lift check.

(** [try: body  except FormException as e: handler(e)] *)
Definition try_except_FormException {A : Type}
    (body : M A) (handler : string → M A) : M A :=
  fun form =>
    let r := body form in
    match run_result r with
    | Raise (FormException msg) =>
        let r' := handler msg (run_form r) in
        MkRun (run_form r') (run_trace r ++ run_trace r') (run_result r')
    | _ => r
    end.

(** The form as [Form.__init__] and [Form.build] leave it: the spin boxes
    show their lower bound, the combo box its first value. *)
Definition _add_select_colormap_combobox : Combobox :=
  Combobox_current 0
    {| Combobox_values := colormap_values; Combobox_get := "" |}.

Definition build : Form := {|
  _textual_content_field := {| Text_contents := "" |};
  _width_field := {| Spinbox_get := Py.str MIN_WIDTH_IMAGE |};
  _height_field := {| Spinbox_get := Py.str MIN_HEIGHT_IMAGE |};
  _max_words_field := {| Spinbox_get := Py.str MIN_NUM_WORDS |};
  _background_color_field := Some "";
  _colormap_field := _add_select_colormap_combobox;
  _stopwords_field := {| Text_contents := "" |};
  _file_path_field := StringVar_new
|}.

(** [_background_colorpicker]: [colors] is what [askcolor] returned,
    [(None, None)] when the dialog was cancelled. *)
Definition _background_colorpicker {RGB : Type}
    (colors : option RGB * option string) (form : Form) : Form :=
  {| _textual_content_field := _textual_content_field form;
     _width_field := _width_field form;
     _height_field := _height_field form;
     _max_words_field := _max_words_field form;
     _background_color_field := colors.2;
     _colormap_field := _colormap_field form;
     _stopwords_field := _stopwords_field form;
     _file_path_field := _file_path_field form |}.

Definition set_file_path_field (var : StringVar) (form : Form) : Form :=
  {| _textual_content_field := _textual_content_field form;
     _width_field := _width_field form;
     _height_field := _height_field form;
     _max_words_field := _max_words_field form;
     _background_color_field := _background_color_field form;
     _colormap_field := _colormap_field form;
     _stopwords_field := _stopwords_field form;
     _file_path_field := var |}.

(** [_ask_saveas_file_name]: [path] is what [asksaveasfilename] returned,
    the empty string when the dialog was cancelled; [set] changes the
    variable in place. *)
Definition _ask_saveas_file_name (path : string) (form : Form) : Form :=
  set_file_path_field {| StringVar_get := path |} form.

Definition _get_image_extensions : list (string * string) :=
  (fun extension =>
     (ImageExtensions_name extension, ImageExtensions_value extension))
    <$> [PNG; JPEG].

Definition _get_textual_content : M string :=
  field ← attr TextualContent _textual_content_field;
  let textual_content := FieldUtils.get_text_value field in
  _ ← validator TextualContent
        (FieldsValidator.validate_text_content textual_content);
  mret textual_content.

Definition _get_dimensions : M (Z * Z) :=
  wfield ← attr Width _width_field;
  let width := FieldUtils.get_box_value (inl wfield) in
  hfield ← attr Height _height_field;
  let height := FieldUtils.get_box_value (inl hfield) in
  _ ← validator Width (FieldsValidator.validate_width width);
  _ ← validator Height (FieldsValidator.validate_height height);
  w ← lift (int_ width);
  h ← lift (int_ height);
  mret (w, h).

Definition _get_max_words : M Z :=
  field ← attr MaxWords _max_words_field;
  let max_words := FieldUtils.get_box_value (inl field) in
  _ ← validator MaxWords (FieldsValidator.validate_max_words max_words);
  lift (int_ max_words).

(** The truth value of [None] and of the empty string is false. *)
Definition _get_background_color : M (option string) :=
  color ← attr BackgroundColor _background_color_field;
  if from_option Py.truthy false color
  then attr BackgroundColor _background_color_field
  else mret None.

Definition _get_colormap : M string :=
  field ← attr Colormap _colormap_field;
  mret (FieldUtils.get_box_value (inr field)).

(** [set(filter(None, [word.strip() for word in s.split(",")]))] *)
Definition parse_stopwords (stopword_values : string) : gset string :=
  list_to_set
    (filter (fun word => Py.truthy word = true)
            (Py.strip <$> Py.split "," stopword_values)).

Definition _get_stopwords : M (option (gset string)) :=
  field ← attr Stopwords _stopwords_field;
  let stopword_values := FieldUtils.get_text_value field in
  if Py.truthy stopword_values
  then mret (Some (parse_stopwords stopword_values))
  else mret None.

Definition _get_file_path : M string :=
  var ← attr FilePath _file_path_field;
  let file_path := StringVar_get var in
  _ ← validator FilePath (FieldsValidator.validate_file_path file_path);
  mret file_path.

Definition _build_image_object : M Image.t :=
  textual_content ← _get_textual_content;
  '(width, height) ← _get_dimensions;
  max_words ← _get_max_words;
  background_color ← _get_background_color;
  colormap ← _get_colormap;
  stopwords ← _get_stopwords;
  file_path ← _get_file_path;
  lift (Image.init textual_content width height max_words background_color
          (Passed colormap) (Passed stopwords) (Passed file_path)).

Definition _reset_file_path : M unit :=
  fun form => MkRun (set_file_path_field StringVar_new form) [] (Ok tt).

Definition showerror (title message : string) : M unit :=
  emit (ShowError title message).

Definition showinfo (title message : string) : M unit :=
  emit (ShowInfo title message).

Definition success_message (file_path : string) : string :=
  "Your Word Cloud has been successfully generated."
  +:+ " You can find it on the path below:" +:+ END_newline +:+ END_newline
  +:+ file_path.

(** The submission, over the word-cloud library: [generate] is
    [WordCloud(...).generate(text)] and [to_file] the picture's
    [to_file(path)]; each returns or raises an error of the library. *)
Section Submission.

Context {Picture : Type}.
Variable generate : WordCloud.args → string → string + Picture.
Variable to_file : Picture → string → option string.

Definition WordCloud_generate (config : WordCloud.args) (text : string)
  : M Picture :=
  _ ← emit (Generate config text);
  lift (match generate config text with
        | inr picture => Ok picture
        | inl err => Raise (LibraryError err)
        end).

Definition WordCloud_to_file (picture : Picture) (file_path : string)
  : M unit :=
  _ ← emit (ToFile file_path);
  lift (match to_file picture file_path with
        | None => Ok tt
        | Some err => Raise (LibraryError err)
        end).

Definition _generate_word_cloud_image : M unit :=
  try_except_FormException
    (image ← _build_image_object;
     wordcloud ← WordCloud_generate
       {| WordCloud.width := Image.width image;
          WordCloud.height := Image.height image;
          WordCloud.random_state := 1;
          WordCloud.background_color := Image.background_color image;
          WordCloud.colormap := Image.colormap image;
          WordCloud.collocations := false;
          WordCloud.max_words := Image.max_words image;
          WordCloud.stopwords := Image.stopwords image |}
       (Image.textual_content image);
     let file_path := Image.file_path image in
     _ ← WordCloud_to_file wordcloud file_path;
     _ ← _reset_file_path;
     showinfo "Success" (success_message file_path))
    (fun e => showerror "error" e).

End Submission.

(** ** The submission seen field by field *)

(** The value each field hands to the validator or the configuration. *)
Definition text_value (form : Form) : string :=
  FieldUtils.get_text_value (_textual_content_field form).
Definition width_value (form : Form) : string :=
  FieldUtils.get_box_value (inl (_width_field form)).
Definition height_value (form : Form) : string :=
  FieldUtils.get_box_value (inl (_height_field form)).
Definition max_words_value (form : Form) : string :=
  FieldUtils.get_box_value (inl (_max_words_field form)).
Definition colormap_value (form : Form) : string :=
  FieldUtils.get_box_value (inr (_colormap_field form)).
Definition stopwords_value (form : Form) : string :=
  FieldUtils.get_text_value (_stopwords_field form).
Definition file_path_value (form : Form) : string :=
  StringVar_get (_file_path_field form).

(** What the validator says of a field; a field without a validator
    passes. *)
Definition field_check (form : Form) (name : FieldName) : result unit :=
  match name with
  | TextualContent => FieldsValidator.validate_text_content (text_value form)
  | Width => FieldsValidator.validate_width (width_value form)
  | Height => FieldsValidator.validate_height (height_value form)
  | MaxWords => FieldsValidator.validate_max_words (max_words_value form)
  | FilePath => FieldsValidator.validate_file_path (file_path_value form)
  | BackgroundColor | Colormap | Stopwords => Ok tt
  end.

(** The place of a field in the order of [_build_image_object]. *)
Definition field_order (name : FieldName) : nat :=
  match name with
  | TextualContent => 0
  | Width => 1
  | Height => 2
  | MaxWords => 3
  | BackgroundColor => 4
  | Colormap => 5
  | Stopwords => 6
  | FilePath => 7
  end%nat.

(** No colour chosen: the field holds [None] or the empty string. *)
Definition background_chosen (form : Form) : bool :=
  from_option Py.truthy false (_background_color_field form).

(** The configuration a form whose fields all pass is turned into. *)
Definition configuration (form : Form) : Image.t := {|
  Image.textual_content := text_value form;
  Image.width := default 0 (Py.int (width_value form));
  Image.height := default 0 (Py.int (height_value form));
  Image.max_words := default 0 (Py.int (max_words_value form));
  Image.background_color :=
    if background_chosen form
    then default "black" (_background_color_field form)
    else "black";
  Image.colormap := colormap_value form;
  Image.stopwords :=
    if Py.truthy (stopwords_value form)
    then Some (parse_stopwords (stopwords_value form))
    else None;
  Image.file_path := file_path_value form
|}.

(** The events up to each validator, in the order of the source. *)
Definition trace_text : list Event :=
  [Read TextualContent; Validate TextualContent].
Definition trace_width : list Event :=
  trace_text ++ [Read Width; Read Height; Validate Width].
Definition trace_height : list Event := trace_width ++ [Validate Height].
Definition trace_max_words : list Event :=
  trace_height ++ [Read MaxWords; Validate MaxWords].
Definition trace_file_path (form : Form) : list Event :=
  trace_max_words
  ++ (if background_chosen form
      then [Read BackgroundColor; Read BackgroundColor]
      else [Read BackgroundColor])
  ++ [Read Colormap; Read Stopwords; Read FilePath; Validate FilePath].

(** The run of [_build_image_object], by the first field that fails. *)
Definition first_failure (form : Form) : list Event * result Image.t :=
  match field_check form TextualContent with
  | Raise e => (trace_text, Raise e)
  | Ok _ =>
  match field_check form Width with
  | Raise e => (trace_width, Raise e)
  | Ok _ =>
  match field_check form Height with
  | Raise e => (trace_height, Raise e)
  | Ok _ =>
  match field_check form MaxWords with
  | Raise e => (trace_max_words, Raise e)
  | Ok _ =>
  match field_check form FilePath with
  | Raise e => (trace_file_path form, Raise e)
  | Ok _ => (trace_file_path form, Ok (configuration form))
  end end end end end.

(** Whether an event is a call of the generator, a write or a dialog. *)
Definition outward (ev : Event) : bool :=
  match ev with
  | Read _ | Validate _ => false
  | _ => true
  end.

(** The arguments the submission gives the generator for a
    configuration. *)
Definition generator_config (image : Image.t) : WordCloud.args := {|
  WordCloud.width := Image.width image;
  WordCloud.height := Image.height image;
  WordCloud.random_state := 1;
  WordCloud.background_color := Image.background_color image;
  WordCloud.colormap := Image.colormap image;
  WordCloud.collocations := false;
  WordCloud.max_words := Image.max_words image;
  WordCloud.stopwords := Image.stopwords image
|}.

(** ** Collaborators and forms used in the examples *)

(** A generator and a writer that never fail. *)
Definition generate_ok (config : WordCloud.args) (text : string)
  : string + unit := inr tt.
Definition to_file_ok (picture : unit) (file_path : string)
  : option string := None.

(** The end-to-end scenario: a text, the smallest sizes, nothing chosen
    for the colour, the colormap and the stopwords, and a path. *)
Definition form_example : Form := {|
  _textual_content_field := {| Text_contents := "hello world hello" |};
  _width_field := {| Spinbox_get := "400" |};
  _height_field := {| Spinbox_get := "200" |};
  _max_words_field := {| Spinbox_get := "200" |};
  _background_color_field := Some "";
  _colormap_field := _add_select_colormap_combobox;
  _stopwords_field := {| Text_contents := "" |};
  _file_path_field := {| StringVar_get := "/tmp/out.png" |}
|}.

Definition set_width_field (spin : Spinbox) (form : Form) : Form :=
  {| _textual_content_field := _textual_content_field form;
     _width_field := spin;
     _height_field := _height_field form;
     _max_words_field := _max_words_field form;
     _background_color_field := _background_color_field form;
     _colormap_field := _colormap_field form;
     _stopwords_field := _stopwords_field form;
     _file_path_field := _file_path_field form |}.

(** The scenario with a width below the range, with a width that is not
    a number, and with stopwords. *)
Definition form_narrow : Form :=
  set_width_field {| Spinbox_get := "150" |} form_example.

Definition form_not_a_number : Form :=
  set_width_field {| Spinbox_get := "abc" |} form_example.

Definition form_stopwords : Form := {|
  _textual_content_field := _textual_content_field form_example;
  _width_field := _width_field form_example;
  _height_field := _height_field form_example;
  _max_words_field := _max_words_field form_example;
  _background_color_field := Some "#ff0000";
  _colormap_field := _colormap_field form_example;
  _stopwords_field := {| Text_contents := "a, b ,, c" |};
  _file_path_field := _file_path_field form_example
|}.

(** Whether an event is a dialog. *)
Definition dialog (ev : Event) : bool :=
  match ev with
  | ShowError _ _ | ShowInfo _ _ => true
  | _ => false
  end.

(** A word as the stopword parsing leaves it: not empty, without white
    space at either end, without a comma. *)
Definition clean_word (word : string) : Prop :=
  word ≠ "" ∧ Py.lstrip word = word ∧ Py.rstrip word = word
  ∧ Py.contains "," word = false.

Definition set_stopwords_field (text : Text) (form : Form) : Form :=
  {| _textual_content_field := _textual_content_field form;
     _width_field := _width_field form;
     _height_field := _height_field form;
     _max_words_field := _max_words_field form;
     _background_color_field := _background_color_field form;
     _colormap_field := _colormap_field form;
     _stopwords_field := text;
     _file_path_field := _file_path_field form |}.

Definition set_colormap_field (box : Combobox) (form : Form) : Form :=
  {| _textual_content_field := _textual_content_field form;
     _width_field := _width_field form;
     _height_field := _height_field form;
     _max_words_field := _max_words_field form;
     _background_color_field := _background_color_field form;
     _colormap_field := box;
     _stopwords_field := _stopwords_field form;
     _file_path_field := _file_path_field form |}.

(** A generator that finds no word, and a writer that cannot write. *)
Definition generate_failing (config : WordCloud.args) (text : string)
  : string + unit := inl "We need at least 1 word to plot a word cloud, got 0.".
Definition to_file_failing (picture : unit) (file_path : string)
  : option string := Some "Permission denied".

(** * Properties *)

(** ** The built-ins, on examples *)

Example int_examples :
  Py.int "400" = Some 400 /\ Py.int " +4_00 " = Some 400 /\
  Py.int "-0" = Some 0 /\ Py.int "0400" = Some 400 /\
  Py.int "" = None /\ Py.int "abc" = None /\ Py.int "+ 5" = None /\
  Py.int "_1" = None /\ Py.int "1_" = None /\ Py.int "1__0" = None /\
  Py.int (String "028" "5") = None /\ Py.int (String "160" "5") = Some 5 /\
  Py.int "4.5" = None /\ Py.int "12a" = None.
Proof. repeat split; reflexivity. Qed.

(** The limit on the digits counts the leading zeros. *)
Example int_digit_limit :
  Py.int (Py.repeat 4299 "0" +:+ "7") = Some 7
  ∧ Py.int (Py.repeat 4300 "0" +:+ "7") = None.
Proof. split; vm_compute; reflexivity. Qed.

Example str_examples :
  Py.str 400 = "400" /\ Py.str 0 = "0" /\ Py.str (-12) = "-12".
Proof. repeat split; reflexivity. Qed.

Example string_examples :
  Py.strip "  a b
" = "a b" /\ Py.split "," "a, b ,, c" = ["a"; " b "; ""; " c"] /\
  Py.split "." ".png" = [""; "png"] /\ Py.split "," "" = [""] /\
  Py.basename "/tmp/out.png" = "out.png" /\ Py.basename "out.png" = "out.png" /\
  Py.basename "/tmp/" = "" /\ Py.str_isspace "" = false /\
  Py.str_isspace "  " = true.
Proof. repeat split; reflexivity. Qed.

(** ** White space and [strip] *)

Section Strip.

Import Py.

Lemma lstrip_nil_iff s : lstrip s = "" ↔ all_space s = true.
Proof.
  induction s as [|c r IH]; simpl; [done|].
  destruct (isspace c); simpl; [done|]. split; discriminate.
Qed.

Lemma rstrip_nil_iff s : rstrip s = "" ↔ all_space s = true.
Proof.
  induction s as [|c r IH]; simpl; [done|].
  destruct (rstrip r) eqn:Hr.
  - destruct (isspace c); simpl; [tauto|]. split; discriminate.
  - split; [discriminate|]. intros [_ H]%andb_prop.
    apply IH in H. discriminate.
Qed.

(** What [lstrip] leaves does not start with white space. *)
Lemma lstrip_head s c r : lstrip s = String c r → isspace c = false.
Proof.
  induction s as [|a s IH]; simpl; [discriminate|].
  destruct (isspace a) eqn:Ha; [done|]. congruence.
Qed.

Lemma strip_nil_iff s : strip s = "" ↔ all_space s = true.
Proof.
  unfold strip. rewrite rstrip_nil_iff, <-(lstrip_nil_iff s).
  destruct (lstrip s) as [|c r] eqn:Hl; [by split|].
  apply lstrip_head in Hl. simpl. rewrite Hl. split; discriminate.
Qed.

(** A string of one character left by [rstrip] is not white space. *)
Lemma rstrip_single s c : rstrip s = String c "" → isspace c = false.
Proof.
  destruct s as [|a s]; simpl; [discriminate|].
  destruct (rstrip s) eqn:Hr.
  - destruct (isspace a) eqn:Ha; [discriminate|]. congruence.
  - discriminate.
Qed.

Lemma strip_not_newline s : strip s ≠ END_newline.
Proof. intros H. apply rstrip_single in H. discriminate. Qed.

Lemma all_space_app s t : all_space (s +:+ t) = all_space s && all_space t.
Proof.
  induction s as [|c r IH]; simpl; [done|].
  rewrite IH. by rewrite andb_assoc.
Qed.

Lemma truthy_false_iff s : truthy s = false ↔ s = "".
Proof. destruct s; simpl; split; congruence. Qed.

Lemma truthy_strip s : truthy (strip s) = negb (all_space s).
Proof.
  destruct (all_space s) eqn:Hs; simpl.
  - apply strip_nil_iff in Hs. by rewrite Hs.
  - destruct (strip s) eqn:Hq; [|done].
    apply strip_nil_iff in Hq. congruence.
Qed.

Lemma get_text_value_truthy field :
  truthy (FieldUtils.get_text_value field)
  = negb (all_space (Text_contents field)).
Proof.
  unfold FieldUtils.get_text_value, Text_get.
  rewrite truthy_strip, all_space_app. simpl. by rewrite andb_true_r.
Qed.

End Strip.

(** ** [int] reads back what [str] prints *)

Section IntStr.

Import Py.

Lemma int_nil : int "" = None.
Proof. reflexivity. Qed.

Lemma int_Some_truthy s n : int s = Some n → truthy s = true.
Proof. destruct s; [discriminate|done]. Qed.

Lemma digit_value_pretty_N_char d :
  (d < 10)%N →
  digit_value (pretty_N_char d) = Some (Z.of_N d)
  ∧ pretty_N_char d ≠ "_"%char.
Proof.
  intros Hd. rewrite <-(N2Nat.id d).
  assert (N.to_nat d < 10)%nat as Hn by lia.
  revert Hn. generalize (N.to_nat d). intros n Hn.
  do 10 (destruct n as [|n]; [by split|]). lia.
Qed.

(** A string that starts with a digit is read as a magnitude. *)
Lemma int_digit_head c r :
  is_Some (digit_value c) → int (String c r) = int_magnitude (String c r).
Proof.
  intros [d Hd].
  destruct c as [[] [] [] [] [] [] [] []]; try discriminate Hd; reflexivity.
Qed.

(** The scan runs through the digits [pretty_N_go] puts in front of [s];
    there is no leading zero among them. *)
Lemma scan_digits_pretty_N_go x : ∀ s, ∃ k : Z,
  0 ≤ k ∧ (x = 0%N ∧ k = 0 ∨ 10 ^ k ≤ 10 * Z.of_N x)
  ∧ ∀ acc digits, scan_digits false acc digits (pretty_N_go x s)
                  = scan_digits false (acc * 10 ^ k + Z.of_N x) (digits + k) s.
Proof.
  induction (N.lt_wf_0 x) as [x _ IH]. intros s.
  destruct (decide (x = 0%N)) as [->|Hx].
  - exists 0. split; [done|]. split; [by left|].
    intros acc digits. rewrite pretty_N_go_0. f_equal; lia.
  - rewrite pretty_N_go_step by lia.
    destruct (IH (x `div` 10)%N) with (s := String (pretty_N_char (x `mod` 10)) s)
      as (k & Hk & Hsize & Hscan).
    { apply N.div_lt; lia. }
    pose proof (Z.div_mod (Z.of_N x) 10) as Hdm.
    pose proof (Z.mod_pos_bound (Z.of_N x) 10) as Hmod.
    assert (Z.of_N (x `div` 10) = Z.of_N x `div` 10) as Hdiv
      by apply N2Z.inj_div.
    assert (Z.of_N (x `mod` 10) = Z.of_N x `mod` 10) as Hrem
      by apply N2Z.inj_mod.
    exists (k + 1). split; [lia|]. split.
    + right. rewrite Z.pow_add_r by lia. change (10 ^ 1) with 10.
      destruct Hsize as [[Hq ->]|Hsize]; [change (10 ^ 0) with 1; lia|lia].
    + intros acc digits. rewrite Hscan.
      destruct (digit_value_pretty_N_char (x `mod` 10)%N) as [Hd Hus].
      { apply N.mod_lt. lia. }
      cbn [scan_digits]. rewrite decide_False by done. rewrite Hd.
      f_equal; [|lia]. rewrite Z.pow_add_r by lia.
      change (10 ^ 1) with 10. lia.
Qed.

Lemma pretty_N_go_head x : ∀ s, (0 < x)%N →
  ∃ d r, (d < 10)%N ∧ pretty_N_go x s = String (pretty_N_char d) r.
Proof.
  induction (N.lt_wf_0 x) as [x _ IH]. intros s Hx.
  rewrite pretty_N_go_step by done.
  destruct (decide (x `div` 10 = 0)%N) as [->|Hq].
  - rewrite pretty_N_go_0. eexists _, _. split; [|done].
    apply N.mod_lt. lia.
  - apply IH; [apply N.div_lt; lia|].
    apply N.neq_0_lt_0. done.
Qed.

(** What [int] reads in the writing of a positive number is that number,
    and it reads it when the number is within the limit on the digits. *)
Lemma int_magnitude_pretty_pos p :
  int (pretty (Npos p)) = int_magnitude (pretty (Npos p))
  ∧ (∀ m, int_magnitude (pretty (Npos p)) = Some m → m = Zpos p)
  ∧ (Zpos p < 10 ^ max_str_digits →
     int_magnitude (pretty (Npos p)) = Some (Zpos p)).
Proof.
  unfold pretty, pretty_N. rewrite decide_False by done.
  destruct (pretty_N_go_head (Npos p) "") as (d & r & Hd & Hhead); [lia|].
  destruct (digit_value_pretty_N_char d Hd) as [Hdv _].
  destruct (scan_digits_pretty_N_go (Npos p) "") as (k & Hk & Hsize & Hscan).
  specialize (Hscan 0 0). rewrite Hhead in Hscan |- *.
  split; [apply int_digit_head; rewrite Hdv; by eexists|].
  unfold int_magnitude. rewrite Hdv, Hscan. cbn [scan_digits all_int_space].
  rewrite andb_true_r. change (0 * 10 ^ k + Z.of_N (N.pos p)) with (Z.pos p).
  split.
  - intros m. case_match; congruence.
  - intros Hlimit. destruct Hsize as [[? _]|Hsize]; [done|].
    destruct (Z.leb_spec (0 + k) max_str_digits) as [|Hover]; [done|].
    exfalso.
    assert (10 ^ (max_str_digits + 1) ≤ 10 ^ k) as Hpow
      by (apply Z.pow_le_mono_r; lia).
    rewrite Z.pow_add_r in Hpow by done.
    change (10 ^ 1) with 10 in Hpow.
    change (Z.of_N (N.pos p)) with (Z.pos p) in Hsize. lia.
Qed.

(** [int(str(n))] is [n] or a [ValueError], never another number. *)
Lemma int_str_inv n m : int (str n) = Some m → m = n.
Proof.
  destruct n as [|p|p]; [by intros [= <-]|..].
  - destruct (int_magnitude_pretty_pos p) as (Hint & Hinv & _).
    change (str (Z.pos p)) with (pretty (Npos p)). rewrite Hint. apply Hinv.
  - change (str (Z.neg p)) with (String "-" (pretty (Npos p))).
    change (int (String "-" (pretty (Npos p))))
      with (Z.opp <$> int_magnitude (pretty (Npos p))).
    destruct (int_magnitude_pretty_pos p) as (_ & Hinv & _).
    destruct (int_magnitude (pretty (Npos p))) as [q|]; [|done].
    intros [= <-]. by rewrite (Hinv q eq_refl).
Qed.

(** [int(str(n)) == n], for the numbers within the limit on the digits. *)
Lemma int_str n : Z.abs n < 10 ^ max_str_digits → int (str n) = Some n.
Proof.
  destruct n as [|p|p]; [done|..]; intros Hn.
  - destruct (int_magnitude_pretty_pos p) as (Hint & _ & Hm).
    change (str (Z.pos p)) with (pretty (Npos p)). rewrite Hint.
    apply Hm. lia.
  - change (str (Z.neg p)) with (String "-" (pretty (Npos p))).
    change (int (String "-" (pretty (Npos p))))
      with (Z.opp <$> int_magnitude (pretty (Npos p))).
    destruct (int_magnitude_pretty_pos p) as (_ & _ & Hm).
    rewrite Hm by lia. done.
Qed.

End IntStr.

(** ** The validators *)

Section Validators.

Import FieldsValidator.

(** The three numeric validators differ in their bounds and messages only. *)
Ltac numeric_validator v H :=
  unfold v, int_; rewrite H, (int_Some_truthy _ _ H);
  cbn [negb mbind result_bind];
  unfold MIN_WIDTH_IMAGE, MAX_WIDTH_IMAGE, MIN_HEIGHT_IMAGE,
    MAX_HEIGHT_IMAGE, MIN_NUM_WORDS, MAX_NUM_WORDS;
  match goal with
  | |- context [?n <=? 0] =>
      destruct (Z.leb_spec n 0);
      [|match goal with
        | |- context [(n <? ?lo) || (?hi <? n)] =>
            destruct (Z.ltb_spec n lo), (Z.ltb_spec hi n)
        end]
  end;
  cbn [orb]; repeat case_decide; try reflexivity; lia.

Lemma validate_width_Some s n : Py.int s = Some n →
  validate_width s =
    if decide (MIN_WIDTH_IMAGE ≤ n ≤ MAX_WIDTH_IMAGE) then Ok tt
    else Raise (FormException
      (if decide (n ≤ 0) then "Width cannot be less equal to zero."
       else "Width needs to be between 400 and 3000.")).
Proof.
  intros H.
  numeric_validator validate_width H.
Qed.

Lemma validate_height_Some s n : Py.int s = Some n →
  validate_height s =
    if decide (MIN_HEIGHT_IMAGE ≤ n ≤ MAX_HEIGHT_IMAGE) then Ok tt
    else Raise (FormException
      (if decide (n ≤ 0) then "Height cannot be less equal to zero."
       else "Height needs to be between 200 and 1500.")).
Proof.
  intros H.
  numeric_validator validate_height H.
Qed.

Lemma validate_max_words_Some s n : Py.int s = Some n →
  validate_max_words s =
    if decide (MIN_NUM_WORDS ≤ n ≤ MAX_NUM_WORDS) then Ok tt
    else Raise (FormException
      (if decide (n ≤ 0) then "Max Words cannot be less equal to zero."
       else "Max words needs to be between 200 and 400.")).
Proof.
  intros H.
  numeric_validator validate_max_words H.
Qed.

(** On a string [int] rejects: the empty one is reported by the validator,
    any other makes [int] raise. *)
Lemma validate_width_None s : Py.int s = None →
  validate_width s =
    Raise (if Py.truthy s then ValueError s
           else FormException "Width cannot be empty.").
Proof. intros H. unfold validate_width, int_. rewrite H. by destruct s. Qed.

Lemma validate_height_None s : Py.int s = None →
  validate_height s =
    Raise (if Py.truthy s then ValueError s
           else FormException "Height cannot be empty.").
Proof. intros H. unfold validate_height, int_. rewrite H. by destruct s. Qed.

Lemma validate_max_words_None s : Py.int s = None →
  validate_max_words s =
    Raise (if Py.truthy s then ValueError s
           else FormException "Max Words cannot be empty.").
Proof. intros H. unfold validate_max_words, int_. rewrite H. by destruct s. Qed.

(** A validator that accepts a string has parsed it, inside the bounds. *)
Lemma validate_width_Ok s : validate_width s = Ok tt →
  ∃ n, int_ s = Ok n ∧ MIN_WIDTH_IMAGE ≤ n ≤ MAX_WIDTH_IMAGE.
Proof.
  destruct (Py.int s) as [n|] eqn:H.
  - rewrite (validate_width_Some s n H). case_decide; [|done].
    intros _. exists n. unfold int_. by rewrite H.
  - by rewrite (validate_width_None s H).
Qed.

Lemma validate_height_Ok s : validate_height s = Ok tt →
  ∃ n, int_ s = Ok n ∧ MIN_HEIGHT_IMAGE ≤ n ≤ MAX_HEIGHT_IMAGE.
Proof.
  destruct (Py.int s) as [n|] eqn:H.
  - rewrite (validate_height_Some s n H). case_decide; [|done].
    intros _. exists n. unfold int_. by rewrite H.
  - by rewrite (validate_height_None s H).
Qed.

Lemma validate_max_words_Ok s : validate_max_words s = Ok tt →
  ∃ n, int_ s = Ok n ∧ MIN_NUM_WORDS ≤ n ≤ MAX_NUM_WORDS.
Proof.
  destruct (Py.int s) as [n|] eqn:H.
  - rewrite (validate_max_words_Some s n H). case_decide; [|done].
    intros _. exists n. unfold int_. by rewrite H.
  - by rewrite (validate_max_words_None s H).
Qed.

(** The bounds are inclusive, and the first value outside fails. *)
Example validate_width_bounds :
  validate_width "400" = Ok tt ∧ validate_width "3000" = Ok tt
  ∧ validate_width "399"
    = Raise (FormException "Width needs to be between 400 and 3000.")
  ∧ validate_width "3001"
    = Raise (FormException "Width needs to be between 400 and 3000.")
  ∧ validate_width "150"
    = Raise (FormException "Width needs to be between 400 and 3000.")
  ∧ validate_width "0"
    = Raise (FormException "Width cannot be less equal to zero.")
  ∧ validate_width "" = Raise (FormException "Width cannot be empty.").
Proof. repeat split; reflexivity. Qed.

Example validate_height_bounds :
  validate_height "200" = Ok tt ∧ validate_height "1500" = Ok tt
  ∧ validate_height "199"
    = Raise (FormException "Height needs to be between 200 and 1500.")
  ∧ validate_height "1501"
    = Raise (FormException "Height needs to be between 200 and 1500.").
Proof. repeat split; reflexivity. Qed.

Example validate_max_words_bounds :
  validate_max_words "200" = Ok tt ∧ validate_max_words "400" = Ok tt
  ∧ validate_max_words "199"
    = Raise (FormException "Max words needs to be between 200 and 400.")
  ∧ validate_max_words "401"
    = Raise (FormException "Max words needs to be between 200 and 400.").
Proof. repeat split; reflexivity. Qed.

(** Every integer in its decimal writing is judged by its value. *)
Ltac validator_str HSome HNone :=
  match goal with
  | |- ?v (Py.str ?n) = Ok tt ↔ ?lo ≤ ?n ≤ ?hi =>
      destruct (Py.int (Py.str n)) as [m|] eqn:Hint;
      [ pose proof (int_str_inv n m Hint) as ->;
        rewrite (HSome _ n Hint); by case_decide
      | rewrite (HNone _ Hint); split; [done|];
        intros Hrange; rewrite int_str in Hint; [done|];
        assert (3000 < 10 ^ Py.max_str_digits) by done;
        unfold lo, hi in Hrange; lia ]
  end.

Lemma validate_width_str n :
  validate_width (Py.str n) = Ok tt ↔ MIN_WIDTH_IMAGE ≤ n ≤ MAX_WIDTH_IMAGE.
Proof. validator_str validate_width_Some validate_width_None. Qed.

Lemma validate_height_str n :
  validate_height (Py.str n) = Ok tt ↔ MIN_HEIGHT_IMAGE ≤ n ≤ MAX_HEIGHT_IMAGE.
Proof. validator_str validate_height_Some validate_height_None. Qed.

Lemma validate_max_words_str n :
  validate_max_words (Py.str n) = Ok tt ↔ MIN_NUM_WORDS ≤ n ≤ MAX_NUM_WORDS.
Proof. validator_str validate_max_words_Some validate_max_words_None. Qed.

(** C2. For every integer [n] given as the width string, be it in the
    decimal writing [str n] or as any other string [s] that [int] reads as
    [n], the width validation succeeds iff [400 <= n <= 3000]; likewise
    the height validation succeeds iff [200 <= n <= 1500] and the
    max-words validation iff [200 <= n <= 400], bounds included.  When it
    does not succeed on such an [s] it fails with a [FormException]. *)
Theorem numeric_validation_ranges (n : Z) :
  (validate_width (Py.str n) = Ok tt ↔ 400 ≤ n ≤ 3000)
  ∧ (validate_height (Py.str n) = Ok tt ↔ 200 ≤ n ≤ 1500)
  ∧ (validate_max_words (Py.str n) = Ok tt ↔ 200 ≤ n ≤ 400)
  ∧ ∀ s : string, Py.int s = Some n →
      (validate_width s = Ok tt ↔ 400 ≤ n ≤ 3000)
      ∧ (validate_height s = Ok tt ↔ 200 ≤ n ≤ 1500)
      ∧ (validate_max_words s = Ok tt ↔ 200 ≤ n ≤ 400)
      ∧ (¬ 400 ≤ n ≤ 3000
         → ∃ msg, validate_width s = Raise (FormException msg))
      ∧ (¬ 200 ≤ n ≤ 1500
         → ∃ msg, validate_height s = Raise (FormException msg))
      ∧ (¬ 200 ≤ n ≤ 400
         → ∃ msg, validate_max_words s = Raise (FormException msg)).
Proof.
  split; [apply validate_width_str|].
  split; [apply validate_height_str|].
  split; [apply validate_max_words_str|].
  intros s H.
  rewrite (validate_width_Some s n H), (validate_height_Some s n H),
    (validate_max_words_Some s n H).
  unfold MIN_WIDTH_IMAGE, MAX_WIDTH_IMAGE, MIN_HEIGHT_IMAGE,
    MAX_HEIGHT_IMAGE, MIN_NUM_WORDS, MAX_NUM_WORDS.
  repeat split; repeat case_decide; try done; try lia; eauto.
Qed.

(** The upper bound of the width, written with a sign, spaces and an
    underscore, and in its decimal writing. *)
Lemma numeric_validation_ranges_witness :
  Py.int " +3_000 " = Some 3000
  ∧ FieldsValidator.validate_width " +3_000 " = Ok tt
  ∧ FieldsValidator.validate_height " +3_000 " ≠ Ok tt
  ∧ FieldsValidator.validate_max_words " +3_000 " ≠ Ok tt
  ∧ FieldsValidator.validate_width (Py.str 3000) = Ok tt.
Proof.
  assert (Py.int " +3_000 " = Some 3000) as H by reflexivity.
  destruct (numeric_validation_ranges 3000) as (Hstr & _ & _ & Hs).
  destruct (Hs " +3_000 " H) as (Hw & Hh & Hm & _).
  split; [exact H|]. split; [apply Hw; lia|].
  split; [rewrite Hh; lia|]. split; [rewrite Hm; lia|].
  apply Hstr. lia.
Defined.

(** C3. The text-content validation fails for every content of the text
    widget that is empty or white space only, and succeeds for every other
    content; on the value itself, it succeeds exactly when the value is
    neither empty nor a bare newline. *)
Theorem text_content_validation :
  (∀ field : Text,
     validate_text_content (FieldUtils.get_text_value field)
     = if Py.all_space (Text_contents field)
       then Raise (FormException "Textual content cannot be empty.")
       else Ok tt)
  ∧ (∀ textual_content : string,
       validate_text_content textual_content
       = if decide (textual_content = "" ∨ textual_content = END_newline)
         then Raise (FormException "Textual content cannot be empty.")
         else Ok tt).
Proof.
  split.
  - intros field. unfold validate_text_content.
    rewrite get_text_value_truthy, negb_involutive.
    rewrite bool_decide_eq_false_2 by apply strip_not_newline.
    by rewrite orb_false_r.
  - intros tc. unfold validate_text_content.
    case_decide as Hd.
    + by destruct Hd as [->| ->].
    + destruct tc as [|c r]; [tauto|]. cbn [Py.truthy negb orb].
      rewrite bool_decide_eq_false_2; [done|tauto].
Qed.

Example text_content_examples :
  validate_text_content (FieldUtils.get_text_value {| Text_contents := "" |})
  = Raise (FormException "Textual content cannot be empty.")
  ∧ validate_text_content
      (FieldUtils.get_text_value {| Text_contents := "   " +:+ END_newline |})
    = Raise (FormException "Textual content cannot be empty.")
  ∧ validate_text_content
      (FieldUtils.get_text_value {| Text_contents := " hello world " |})
    = Ok tt
  ∧ validate_text_content "  " = Ok tt.
Proof. repeat split; reflexivity. Qed.

End Validators.

(** ** Paths *)

Section Paths.

Import Py.

Lemma rfind_absent ch s : contains ch s = false → rfind ch s = -1.
Proof.
  induction s as [|c r IH]; simpl; [done|].
  intros [Hc Hr]%orb_false_elim. rewrite (IH Hr). simpl.
  apply bool_decide_eq_false in Hc. by rewrite decide_False.
Qed.

Lemma rfind_app_sep ch dir name :
  contains ch name = false →
  rfind ch (dir +:+ String ch name) = Z.of_nat (String.length dir).
Proof.
  intros Hname. induction dir as [|c r IH].
  - change ("" +:+ String ch name) with (String ch name).
    cbn [rfind]. rewrite (rfind_absent _ _ Hname). simpl.
    by rewrite decide_True.
  - change (String c r +:+ String ch name)
      with (String c (r +:+ String ch name)).
    cbn [rfind]. rewrite IH. cbn [String.length].
    destruct (Z.leb_spec 0 (Z.of_nat (String.length r))); lia.
Qed.

Lemma drop_app_length dir rest :
  drop (String.length dir) (dir +:+ rest) = rest.
Proof. induction dir as [|c r IH]; simpl; [by destruct rest|done]. Qed.

(** The directory part does not matter: the base name of [dir/name] is
    [name]. *)
Lemma basename_app dir name :
  contains "/" name = false → basename (dir +:+ String "/" name) = name.
Proof.
  intros Hname. unfold basename. rewrite (rfind_app_sep _ _ _ Hname).
  replace (Z.to_nat (Z.of_nat (String.length dir) + 1))
    with (S (String.length dir)) by lia.
  change (S (String.length dir)) with (String.length (String "/" dir)).
  clear Hname. induction dir as [|c r IH]; [by destruct name|].
  exact IH.
Qed.

Lemma basename_no_dir name : contains "/" name = false → basename name = name.
Proof.
  intros Hname. unfold basename. rewrite (rfind_absent _ _ Hname).
  by destruct name.
Qed.

Lemma split_cons sep s : ∃ h t, split sep s = h :: t.
Proof.
  induction s as [|c r (h & t & IH)]; simpl; [by eexists _, _|].
  case_decide; [by eexists _, _|]. rewrite IH. by eexists _, _.
Qed.

(** The part in front of the first separator is the first piece. *)
Lemma split_app_sep sep stem rest :
  contains sep stem = false →
  split sep (stem +:+ String sep rest) = stem :: split sep rest.
Proof.
  induction stem as [|c r IH]; intros Hstem.
  - change ("" +:+ String sep rest) with (String sep rest).
    cbn [split]. by rewrite decide_True.
  - cbn [contains] in Hstem. apply orb_false_elim in Hstem as [Hc Hr].
    apply bool_decide_eq_false in Hc.
    change (String c r +:+ String sep rest)
      with (String c (r +:+ String sep rest)).
    cbn [split]. rewrite decide_False by done. by rewrite (IH Hr).
Qed.

Lemma split_absent sep s : contains sep s = false → split sep s = [s].
Proof.
  induction s as [|c r IH]; [done|]. cbn [contains split].
  intros [Hc Hr]%orb_false_elim. apply bool_decide_eq_false in Hc.
  rewrite decide_False by done. by rewrite (IH Hr).
Qed.

Lemma all_space_contains ch s :
  isspace ch = false → all_space s = true → contains ch s = false.
Proof.
  intros Hch. induction s as [|c r IH]; [done|]. cbn [all_space contains].
  intros [Hc Hr]%andb_prop. rewrite (IH Hr), orb_false_r.
  apply bool_decide_eq_false. congruence.
Qed.

Lemma contains_app ch s t :
  contains ch (s +:+ t) = contains ch s || contains ch t.
Proof.
  induction s as [|c r IH]; [done|].
  change (String c r +:+ t) with (String c (r +:+ t)).
  cbn [contains]. by rewrite IH, orb_assoc.
Qed.

End Paths.

Section FilePath.

Import Py FieldsValidator.

(** The validator, through the stem it looks at. *)
Lemma validate_file_path_stem file_path stem rest :
  truthy file_path = true →
  split "." (basename file_path) = stem :: rest →
  validate_file_path file_path =
    if str_isspace stem
    then Raise (FormException "File name cannot be empty.")
    else Ok tt.
Proof.
  intros Hp Hs. unfold validate_file_path. by rewrite Hp, Hs.
Qed.

Lemma truthy_app_sep dir c rest : truthy (dir +:+ String c rest) = true.
Proof. by destruct dir. Qed.

(** A stem of white space is refused, whatever the directory and the
    extension. *)
Lemma validate_file_path_blank_stem dir stem ext :
  str_isspace stem = true →
  contains "/" ext = false →
  validate_file_path (dir +:+ String "/" (stem +:+ String "." ext))
  = Raise (FormException "File name cannot be empty.")
  ∧ validate_file_path (stem +:+ String "." ext)
    = Raise (FormException "File name cannot be empty.")
  ∧ validate_file_path (dir +:+ String "/" stem)
    = Raise (FormException "File name cannot be empty.").
Proof.
  intros Hstem Hext. pose proof Hstem as [Hne Hsp]%andb_prop.
  assert (contains "/" (stem +:+ String "." ext) = false) as Hname.
  { rewrite contains_app, (all_space_contains "/" stem) by done.
    cbn [contains orb]. by rewrite Hext. }
  assert (contains "." stem = false) as Hdot
    by by apply all_space_contains.
  assert (contains "/" stem = false) as Hsl
    by by apply all_space_contains.
  split; [|split].
  - erewrite validate_file_path_stem; [by rewrite Hstem|..].
    + apply truthy_app_sep.
    + rewrite (basename_app _ _ Hname). by apply split_app_sep.
  - erewrite validate_file_path_stem; [by rewrite Hstem|..].
    + apply truthy_app_sep.
    + rewrite (basename_no_dir _ Hname). by apply split_app_sep.
  - erewrite validate_file_path_stem; [by rewrite Hstem|..].
    + apply truthy_app_sep.
    + rewrite (basename_app _ _ Hsl). by apply split_absent.
Qed.

(** An empty stem is accepted, whatever the directory and the extension:
    [isspace] is false on the empty string. *)
Lemma validate_file_path_empty_stem dir ext :
  contains "/" ext = false →
  validate_file_path (dir +:+ String "/" (String "." ext)) = Ok tt
  ∧ validate_file_path (String "." ext) = Ok tt
  ∧ validate_file_path (dir +:+ String "/" "") = Ok tt.
Proof.
  intros Hext.
  assert (contains "/" (String "." ext) = false) as Hname
    by (cbn [contains orb]; by rewrite Hext).
  split; [|split].
  - rewrite (validate_file_path_stem _ "" (split "." ext)); [done|..].
    + apply truthy_app_sep.
    + rewrite (basename_app _ _ Hname). apply (split_app_sep "." ""). done.
  - rewrite (validate_file_path_stem _ "" (split "." ext)); [done..|].
    rewrite (basename_no_dir _ Hname). apply (split_app_sep "." ""). done.
  - rewrite (validate_file_path_stem _ "" []); [done|..].
    + apply truthy_app_sep.
    + by rewrite (basename_app dir "").
Qed.

(** C4. The file-path validation refuses the empty path and a stem of
    white space, but it accepts a path whose base name without its
    extension is empty: here [/home/user/.png], whose base name [.png]
    has the empty stem, and [/home/user/], whose base name is empty. *)
Theorem file_path_empty_stem_accepted :
  basename "/home/user/.png" = ".png"
  ∧ split "." (basename "/home/user/.png") = [""; "png"]
  ∧ validate_file_path "/home/user/.png" = Ok tt
  ∧ validate_file_path "/home/user/" = Ok tt
  ∧ validate_file_path "/home/user/ .png"
    = Raise (FormException "File name cannot be empty.")
  ∧ validate_file_path "" = Raise (FormException "File name cannot be empty.").
Proof. repeat split; reflexivity. Qed.

End FilePath.

(** ** The runs of the form's methods *)

(** Unfold the monad of the methods down to the runs. *)
Ltac run_method :=
  cbv [mbind M_bind mret M_ret lift emit attr validator
       run_result run_trace run_form result_bind].

Section Runs.

Lemma bind_run {A B : Type} (m : M A) (k : A → M B) form form' tr r :
  m form = MkRun form' tr r →
  (m ≫= k) form =
    match r with
    | Ok a =>
        MkRun (run_form (k a form')) (tr ++ run_trace (k a form'))
          (run_result (k a form'))
    | Raise e => MkRun form' tr (Raise e)
    end.
Proof. intros H. unfold mbind, M_bind. rewrite H. by destruct r. Qed.

Lemma run_get_textual_content form :
  _get_textual_content form =
    MkRun form trace_text
      (_ ← field_check form TextualContent; Ok (text_value form)).
Proof.
  unfold _get_textual_content, field_check, text_value.
  run_method.
  by destruct (FieldsValidator.validate_text_content _).
Qed.

Lemma run_get_dimensions form :
  _get_dimensions form =
    MkRun form
      ([Read Width; Read Height; Validate Width]
       ++ match field_check form Width with
          | Ok _ => [Validate Height]
          | Raise _ => []
          end)
      (_ ← field_check form Width;
       _ ← field_check form Height;
       w ← int_ (width_value form);
       h ← int_ (height_value form);
       Ok (w, h)).
Proof.
  unfold _get_dimensions, field_check, width_value, height_value.
  run_method.
  destruct (FieldsValidator.validate_width _); [|done].
  destruct (FieldsValidator.validate_height _); [|done].
  destruct (int_ _); [|done]. by destruct (int_ _).
Qed.

Lemma run_get_max_words form :
  _get_max_words form =
    MkRun form [Read MaxWords; Validate MaxWords]
      (_ ← field_check form MaxWords; int_ (max_words_value form)).
Proof.
  unfold _get_max_words, field_check, max_words_value.
  run_method.
  by destruct (FieldsValidator.validate_max_words _).
Qed.

Lemma run_get_background_color form :
  _get_background_color form =
    MkRun form
      (if background_chosen form
       then [Read BackgroundColor; Read BackgroundColor]
       else [Read BackgroundColor])
      (Ok (if background_chosen form then _background_color_field form
           else None)).
Proof.
  unfold _get_background_color, background_chosen.
  run_method.
  by destruct (from_option _ _ _).
Qed.

Lemma run_get_colormap form :
  _get_colormap form = MkRun form [Read Colormap] (Ok (colormap_value form)).
Proof. reflexivity. Qed.

Lemma run_get_stopwords form :
  _get_stopwords form =
    MkRun form [Read Stopwords]
      (Ok (if Py.truthy (stopwords_value form)
           then Some (parse_stopwords (stopwords_value form))
           else None)).
Proof.
  unfold _get_stopwords, stopwords_value.
  run_method.
  by destruct (Py.truthy _).
Qed.

Lemma run_get_file_path form :
  _get_file_path form =
    MkRun form [Read FilePath; Validate FilePath]
      (_ ← field_check form FilePath; Ok (file_path_value form)).
Proof.
  unfold _get_file_path, field_check, file_path_value.
  run_method.
  by destruct (FieldsValidator.validate_file_path _).
Qed.

Lemma run_build_image_object form :
  _build_image_object form =
    MkRun form (first_failure form).1 (first_failure form).2.
Proof.
  unfold _build_image_object, first_failure.
  rewrite (bind_run _ _ _ _ _ _ (run_get_textual_content form)).
  destruct (field_check form TextualContent) as [[]|e];
    cbn [mbind result_bind fst snd]; [|done].
  rewrite (bind_run _ _ _ _ _ _ (run_get_dimensions form)).
  destruct (field_check form Width) as [[]|e] eqn:Hw;
    cbn [mbind result_bind fst snd]; [|done].
  destruct (field_check form Height) as [[]|e] eqn:Hh;
    cbn [mbind result_bind fst snd]; [|done].
  apply validate_width_Ok in Hw as (w & Hwi & _).
  apply validate_height_Ok in Hh as (h & Hhi & _).
  rewrite Hwi, Hhi. cbn [mbind result_bind fst snd].
  rewrite (bind_run _ _ _ _ _ _ (run_get_max_words form)).
  destruct (field_check form MaxWords) as [[]|e] eqn:Hm;
    cbn [mbind result_bind fst snd]; [|done].
  apply validate_max_words_Ok in Hm as (m & Hmi & _).
  rewrite Hmi.
  rewrite (bind_run _ _ _ _ _ _ (run_get_background_color form)).
  rewrite (bind_run _ _ _ _ _ _ (run_get_colormap form)).
  rewrite (bind_run _ _ _ _ _ _ (run_get_stopwords form)).
  rewrite (bind_run _ _ _ _ _ _ (run_get_file_path form)).
  assert (Image.__post_init__
            (if background_chosen form then _background_color_field form
             else None)
          = Image.background_color (configuration form)) as Hbg.
  { unfold configuration, background_chosen. cbn [Image.background_color].
    destruct (_background_color_field form) as [color|]; [|done].
    cbn [from_option]. by destruct (Py.truthy color). }
  assert (∀ s n, int_ s = Ok n → default 0 (Py.int s) = n) as Hint.
  { intros s n. unfold int_. by destruct (Py.int s); intros [= ->]. }
  apply Hint in Hwi, Hhi, Hmi.
  unfold trace_file_path, trace_max_words, trace_height, trace_width,
    trace_text.
  destruct (field_check form FilePath) as [[]|e] eqn:Hf;
    cbn [mbind result_bind fst snd].
  - unfold lift, Image.init. cbn [mbind result_bind run_form run_trace run_result].
    rewrite Hbg. unfold configuration. rewrite Hwi, Hhi, Hmi.
    cbn [Image.background_color].
    by destruct (background_chosen form).
  - cbn [run_form run_trace run_result]. by destruct (background_chosen form).
Qed.

Lemma first_failure_no_outward form ev :
  ev ∈ (first_failure form).1 → outward ev = false.
Proof.
  assert (∀ l : list Event, Forall (λ ev, outward ev = false) l →
            ev ∈ l → outward ev = false) as Hall.
  { intros l Hl Hev. by apply (proj1 (Forall_forall _ _) Hl). }
  apply Hall. unfold first_failure, trace_file_path, trace_max_words,
    trace_height, trace_width, trace_text.
  repeat case_match; cbn [fst app]; repeat constructor.
Qed.

End Runs.

Section SubmissionRuns.

Context {Picture : Type}.
Variable generate : WordCloud.args → string → string + Picture.
Variable to_file : Picture → string → option string.

(** The run of a submission, by the outcome of the validation, of the
    generator and of the writer. *)
Lemma run_generate_word_cloud_image form :
  _generate_word_cloud_image generate to_file form =
    let trace := (first_failure form).1 in
    match (first_failure form).2 with
    | Raise (FormException msg) =>
        MkRun form (trace ++ [ShowError "error" msg]) (Ok tt)
    | Raise e => MkRun form trace (Raise e)
    | Ok image =>
        let config := generator_config image in
        let text := Image.textual_content image in
        let file_path := Image.file_path image in
        match generate config text with
        | inl err =>
            MkRun form (trace ++ [Generate config text])
              (Raise (LibraryError err))
        | inr picture =>
            match to_file picture file_path with
            | Some err =>
                MkRun form
                  (trace ++ [Generate config text; ToFile file_path])
                  (Raise (LibraryError err))
            | None =>
                MkRun (set_file_path_field StringVar_new form)
                  (trace ++ [Generate config text; ToFile file_path;
                             ShowInfo "Success" (success_message file_path)])
                  (Ok tt)
            end
        end
    end.
Proof.
  unfold _generate_word_cloud_image, try_except_FormException.
  rewrite (bind_run _ _ _ _ _ _ (run_build_image_object form)).
  destruct (first_failure form) as [trace [image|e]]; cbn [fst snd].
  - fold (generator_config image).
    unfold WordCloud_generate, WordCloud_to_file, _reset_file_path,
      showinfo, showerror.
    run_method. cbn zeta.
    destruct (generate _ _) as [err|picture]; cbn [app].
    + done.
    + destruct (to_file _ _) as [err|]; cbn [app]; done.
  - cbn [run_result run_form run_trace].
    by destruct e.
Qed.

End SubmissionRuns.

(** ** The order of the validation *)

Section Order.

(** A field: which one it is decides every question below. *)
Ltac by_field name :=
  destruct name; cbn [field_order] in *; try lia; try done.

Ltac concrete_trace :=
  unfold trace_file_path, trace_max_words, trace_height, trace_width,
    trace_text; cbn [app fst snd].

Ltac absent H :=
  repeat (apply elem_of_cons in H as [H|H]; [discriminate H|]);
  by apply elem_of_nil in H.

Ltac not_in_trace :=
  let H := fresh in intros H; first [done | absent H].

(** The fields ahead of the first failure passed, and the failure is the
    last thing that happened. *)
Lemma first_failure_field form e :
  (first_failure form).2 = Raise e →
  ∃ failing,
    field_check form failing = Raise e
    ∧ (∀ name, (field_order name < field_order failing)%nat →
               field_check form name = Ok tt)
    ∧ last (first_failure form).1 = Some (Validate failing)
    ∧ (∀ name, (field_order failing < field_order name)%nat →
         (Validate name ∉ (first_failure form).1)
         ∧ (Read name ∈ (first_failure form).1 →
            failing = Width ∧ name = Height)).
Proof.
  unfold first_failure.
  destruct (field_check form TextualContent) as [[]|e1] eqn:Ht.
  2:{ intros [= <-]. exists TextualContent. concrete_trace.
      split; [done|]. split; [intros name; by_field name|].
      split; [done|]. intros name Hn. by_field name; split; not_in_trace. }
  destruct (field_check form Width) as [[]|e2] eqn:Hw.
  2:{ intros [= <-]. exists Width. concrete_trace.
      split; [done|]. split; [intros name; by_field name|].
      split; [done|]. intros name Hn. by_field name; split; not_in_trace. }
  destruct (field_check form Height) as [[]|e3] eqn:Hh.
  2:{ intros [= <-]. exists Height. concrete_trace.
      split; [done|]. split; [intros name; by_field name|].
      split; [done|]. intros name Hn. by_field name; split; not_in_trace. }
  destruct (field_check form MaxWords) as [[]|e4] eqn:Hm.
  2:{ intros [= <-]. exists MaxWords. concrete_trace.
      split; [done|]. split; [intros name; by_field name|].
      split; [done|]. intros name Hn. by_field name; split; not_in_trace. }
  destruct (field_check form FilePath) as [[]|e5] eqn:Hf; [done|].
  intros [= <-]. exists FilePath. concrete_trace.
  split; [done|]. split; [intros name; by_field name|].
  split; [by destruct (background_chosen form)|].
  intros name Hn. by_field name.
Qed.

(** Conversely, a field that fails behind fields that pass is the failure
    of the whole. *)
Lemma first_failure_at form name e :
  (∀ earlier, (field_order earlier < field_order name)%nat →
              field_check form earlier = Ok tt) →
  field_check form name = Raise e →
  (first_failure form).2 = Raise e.
Proof.
  intros Hahead Hname. unfold first_failure.
  destruct name; try discriminate Hname;
    repeat match goal with
    | |- context [field_check form ?f] =>
        first [ rewrite Hname
              | rewrite (Hahead f) by (cbn [field_order]; lia) ]
    end; done.
Qed.

End Order.

(** ** The configuration that is built *)

Section Configuration.

Lemma build_result form :
  run_result (_build_image_object form) = (first_failure form).2.
Proof. by rewrite run_build_image_object. Qed.

Lemma build_trace form :
  run_trace (_build_image_object form) = (first_failure form).1.
Proof. by rewrite run_build_image_object. Qed.

Lemma build_form form : run_form (_build_image_object form) = form.
Proof. by rewrite run_build_image_object. Qed.

(** A configuration is built exactly when every field passes, and it is
    [configuration]. *)
Lemma first_failure_Ok form image :
  (first_failure form).2 = Ok image →
  image = configuration form
  ∧ (first_failure form).1 = trace_file_path form
  ∧ ∀ name, field_check form name = Ok tt.
Proof.
  unfold first_failure.
  destruct (field_check form TextualContent) as [[]|] eqn:Ht; [|done].
  destruct (field_check form Width) as [[]|] eqn:Hw; [|done].
  destruct (field_check form Height) as [[]|] eqn:Hh; [|done].
  destruct (field_check form MaxWords) as [[]|] eqn:Hm; [|done].
  destruct (field_check form FilePath) as [[]|] eqn:Hf; [|done].
  intros [= <-]. split; [done|]. split; [done|]. by intros [].
Qed.

Lemma first_failure_all_pass form :
  (∀ name, field_check form name = Ok tt) →
  first_failure form = (trace_file_path form, Ok (configuration form)).
Proof.
  intros H. unfold first_failure.
  by rewrite (H TextualContent), (H Width), (H Height), (H MaxWords),
    (H FilePath).
Qed.

(** The default of [colormap] in the dataclass is never used, and could
    not be: leaving the argument out raises. *)
Lemma Image_init_colormap_omitted tc w h m bg sw fp :
  Image.init tc w h m bg Omitted sw fp
  = Raise (TypeError "'str' object is not callable").
Proof. reflexivity. Qed.

(** With every argument passed, as the form does, [Image] never raises. *)
Lemma Image_init_passed tc w h m bg cm sw fp :
  Image.init tc w h m bg (Passed cm) (Passed sw) (Passed fp)
  = Ok {| Image.textual_content := tc; Image.width := w; Image.height := h;
          Image.max_words := m;
          Image.background_color := Image.__post_init__ bg;
          Image.colormap := cm; Image.stopwords := sw;
          Image.file_path := fp |}.
Proof. reflexivity. Qed.

(** The end-to-end scenario builds the configuration of the defaults. *)
Example build_form_example :
  run_result (_build_image_object form_example)
  = Ok {| Image.textual_content := "hello world hello";
          Image.width := 400; Image.height := 200; Image.max_words := 200;
          Image.background_color := "black"; Image.colormap := "Accent";
          Image.stopwords := None; Image.file_path := "/tmp/out.png" |}.
Proof. reflexivity. Qed.

Example build_form_narrow :
  _build_image_object form_narrow
  = MkRun form_narrow
      [Read TextualContent; Validate TextualContent;
       Read Width; Read Height; Validate Width]
      (Raise (FormException "Width needs to be between 400 and 3000.")).
Proof. reflexivity. Qed.

End Configuration.

(** ** Stopwords *)

Section StopwordsParsing.

Lemma elem_of_parse_stopwords raw word :
  word ∈ parse_stopwords raw
  ↔ word ≠ "" ∧ ∃ token, token ∈ Py.split "," raw ∧ word = Py.strip token.
Proof.
  unfold parse_stopwords.
  rewrite elem_of_list_to_set, list_elem_of_filter, list_elem_of_fmap.
  assert (Py.truthy word = true ↔ word ≠ "") as ->.
  { destruct word; simpl; split; congruence. }
  split.
  - intros (Hw & token & Hs & Hin). split; [done|]. by exists token.
  - intros (Hw & token & Hin & Hs). split; [done|]. by exists token.
Qed.

Lemma stopwords_value_truthy form :
  Py.truthy (stopwords_value form)
  = negb (Py.all_space (Text_contents (_stopwords_field form))).
Proof. apply get_text_value_truthy. Qed.

(** C5 (as the code has it). Stopword parsing splits the text on commas,
    trims each token and discards the empty ones, so ["a, b ,, c"] gives
    the set of [a], [b] and [c]; but a stopwords field that is empty or
    white space only gives no set at all: [_get_stopwords] returns [None]
    and the built configuration holds [None], not the empty set. *)
Theorem stopwords_parsing :
  parse_stopwords "a, b ,, c" = {[ "a"; "b"; "c" ]}
  ∧ (∀ raw word,
       word ∈ parse_stopwords raw
       ↔ word ≠ "" ∧ ∃ token, token ∈ Py.split "," raw
                               ∧ word = Py.strip token)
  ∧ (∀ form,
       run_result (_get_stopwords form)
       = Ok (if Py.all_space (Text_contents (_stopwords_field form))
             then None
             else Some (parse_stopwords (stopwords_value form))))
  ∧ (∀ form image,
       run_result (_build_image_object form) = Ok image →
       Image.stopwords image
       = if Py.all_space (Text_contents (_stopwords_field form))
         then None
         else Some (parse_stopwords (stopwords_value form)))
  ∧ run_result (_get_stopwords form_stopwords) = Ok (Some {[ "a"; "b"; "c" ]})
  ∧ run_result (_get_stopwords form_example) = Ok None.
Proof.
  split; [reflexivity|]. split; [apply elem_of_parse_stopwords|].
  split; [|split; [|split; reflexivity]].
  - intros form. rewrite run_get_stopwords. cbn [run_result].
    rewrite stopwords_value_truthy. by destruct (Py.all_space _).
  - intros form image. rewrite build_result.
    intros (-> & _)%first_failure_Ok. cbn [configuration Image.stopwords].
    rewrite stopwords_value_truthy. by destruct (Py.all_space _).
Qed.

(** C5 (counterexample). With the stopwords field left empty the built
    configuration holds [None] for the stopwords, which is not the empty
    set. *)
Lemma empty_stopwords_not_empty_set :
  Text_contents (_stopwords_field form_example) = ""
  ∧ ∃ image,
      run_result (_build_image_object form_example) = Ok image
      ∧ Image.stopwords image = None
      ∧ Image.stopwords image ≠ Some ∅.
Proof. split; [done|]. eexists. split; [reflexivity|]. by split. Qed.

(** The empty set is what a text of separators gives. *)
Example separators_only : parse_stopwords " , ," = ∅.
Proof. reflexivity. Qed.

End StopwordsParsing.

(** ** Defaults of the configuration *)

Section Defaults.

(** A cancelled colour dialog leaves no colour chosen, as does the fresh
    form. *)
Lemma background_colorpicker_cancelled {RGB : Type} form :
  _background_color_field (_background_colorpicker (RGB := RGB) (None, None) form)
  = None
  ∧ background_chosen (_background_colorpicker (RGB := RGB) (None, None) form)
    = false.
Proof. done. Qed.

Lemma background_chosen_build : background_chosen build = false.
Proof. reflexivity. Qed.

Lemma background_chosen_false form :
  background_chosen form = false
  ↔ _background_color_field form = None
    ∨ _background_color_field form = Some "".
Proof.
  unfold background_chosen.
  destruct (_background_color_field form) as [[|c r]|]; simpl;
    split; try done; auto; intros [?|?]; done.
Qed.

(** C6. When no colormap is chosen, that is when the combo box still
    shows what [build] selected, the built configuration's colormap is
    ["Accent"], the first entry of [colormap_values]. *)
Theorem default_colormap (form : Form) (image : Image.t) :
  _colormap_field form = _colormap_field build →
  run_result (_build_image_object form) = Ok image →
  Image.colormap image = "Accent"
  ∧ colormap_values !! 0%nat = Some (Image.colormap image).
Proof.
  intros Hbox. rewrite build_result. intros (-> & _)%first_failure_Ok.
  cbn [configuration Image.colormap]. unfold colormap_value.
  rewrite Hbox. by split.
Qed.

(** The end-to-end scenario leaves the combo box as it was built. *)
Lemma default_colormap_witness :
  _colormap_field form_example = _colormap_field build
  ∧ run_result (_build_image_object form_example)
    = Ok (configuration form_example)
  ∧ Image.colormap (configuration form_example) = "Accent"
  ∧ colormap_values !! 0%nat
    = Some (Image.colormap (configuration form_example)).
Proof.
  split; [reflexivity|]. split; [reflexivity|].
  apply (default_colormap form_example (configuration form_example));
    reflexivity.
Defined.

(** C7. When no background colour has been chosen (the field holds the
    empty string of the fresh form, or the [None] a cancelled colour dialog
    leaves), the built configuration's background colour is ["black"]. *)
Theorem default_background_color (form : Form) (image : Image.t) :
  _background_color_field form = None
  ∨ _background_color_field form = Some "" →
  run_result (_build_image_object form) = Ok image →
  Image.background_color image = "black".
Proof.
  intros Hbg%background_chosen_false. rewrite build_result.
  intros (-> & _)%first_failure_Ok.
  cbn [configuration Image.background_color]. by rewrite Hbg.
Qed.

(** The form with a colour chosen, after the colour dialog was opened
    again and cancelled. *)
Lemma default_background_color_witness :
  _background_color_field form_stopwords = Some "#ff0000"
  ∧ _background_color_field
      (_background_colorpicker (RGB := Z * Z * Z) (None, None) form_stopwords)
    = None
  ∧ ∃ image,
      run_result
        (_build_image_object
           (_background_colorpicker (RGB := Z * Z * Z) (None, None)
              form_stopwords))
      = Ok image
      ∧ Image.background_color image = "black".
Proof.
  split; [reflexivity|]. split; [reflexivity|].
  eexists. split; [reflexivity|].
  eapply (default_background_color
            (_background_colorpicker (RGB := Z * Z * Z) (None, None)
               form_stopwords)).
  - left. reflexivity.
  - reflexivity.
Defined.

(** A colour that was chosen is the one of the configuration. *)
Example chosen_background_color :
  Image.background_color <$> Some (configuration form_stopwords)
  = Some "#ff0000"
  ∧ run_result (_build_image_object form_stopwords)
    = Ok (configuration form_stopwords).
Proof. split; reflexivity. Qed.

End Defaults.

(** ** The submission *)

Section SubmissionClaims.

Context {Picture : Type}.
Variable generate : WordCloud.args → string → string + Picture.
Variable to_file : Picture → string → option string.

Abbreviation submit := (_generate_word_cloud_image generate to_file).

(** An exception of the validation that is not a [FormException] leaves
    the submission as it is: no dialog, nothing generated or written, no
    field changed. *)
Lemma submit_propagates form e :
  run_result (_build_image_object form) = Raise e →
  (∀ msg, e ≠ FormException msg) →
  run_result (submit form) = Raise e
  ∧ run_form (submit form) = form
  ∧ run_trace (submit form) = run_trace (_build_image_object form).
Proof.
  rewrite build_result, build_trace. intros He Hne.
  rewrite run_generate_word_cloud_image, He. cbn zeta.
  destruct e; try done. by destruct (Hne msg).
Qed.

Lemma submit_reports form msg :
  run_result (_build_image_object form) = Raise (FormException msg) →
  submit form
  = MkRun form
      (run_trace (_build_image_object form) ++ [ShowError "error" msg])
      (Ok tt).
Proof.
  rewrite build_result, build_trace. intros He.
  by rewrite run_generate_word_cloud_image, He.
Qed.

Lemma build_no_outward form ev :
  ev ∈ run_trace (_build_image_object form) → outward ev = false.
Proof. rewrite build_trace. apply first_failure_no_outward. Qed.

(** When the validation raises, the only thing that can reach the outside
    is the error dialog of a [FormException]. *)
Lemma outcome_of_failed_validation form e :
  run_result (_build_image_object form) = Raise e →
  (∀ ev, ev ∈ run_trace (submit form) → outward ev = true →
         ∃ msg, ev = ShowError "error" msg)
  ∧ (∀ msg, e = FormException msg →
       run_result (submit form) = Ok tt
       ∧ run_trace (submit form)
         = run_trace (_build_image_object form) ++ [ShowError "error" msg]).
Proof.
  intros Hbuild.
  assert ((∃ msg, e = FormException msg) ∨ (∀ msg, e ≠ FormException msg))
    as [[msg ->]|Hne].
  { destruct e; [left; by eexists|right; intros; discriminate..]. }
  - rewrite (submit_reports form msg Hbuild).
    cbn [run_result run_trace]. split.
    + intros ev [Hev|Hev%list_elem_of_singleton]%elem_of_app Hout.
      * apply build_no_outward in Hev. congruence.
      * by exists msg.
    + by intros ? [= <-].
  - destruct (submit_propagates form e Hbuild Hne) as (_ & _ & Htr). split.
    + intros ev Hev Hout. rewrite Htr in Hev.
      apply build_no_outward in Hev. congruence.
    + intros msg ->. by destruct (Hne msg).
Qed.

End SubmissionClaims.

(** C1 (as the code has it). A string that [int] does not read makes
    each numeric validator fail: with the [FormException] of an empty
    field when the string is empty, and otherwise with the [ValueError] of
    [int] on that string.  The submission does not catch the [ValueError]:
    when a field fails with it behind fields that pass, the error leaves
    the submission, no dialog is shown, nothing is generated or written
    and no field changes. *)
Theorem non_numeric_validation (s : string) :
  Py.int s = None →
  FieldsValidator.validate_width s
  = Raise (if Py.truthy s then ValueError s
           else FormException "Width cannot be empty.")
  ∧ FieldsValidator.validate_height s
    = Raise (if Py.truthy s then ValueError s
             else FormException "Height cannot be empty.")
  ∧ FieldsValidator.validate_max_words s
    = Raise (if Py.truthy s then ValueError s
             else FormException "Max Words cannot be empty.")
  ∧ ∀ (Picture : Type) (generate : WordCloud.args → string → string + Picture)
      (to_file : Picture → string → option string)
      (form : Form) (name : FieldName),
      (∀ earlier, (field_order earlier < field_order name)%nat →
                  field_check form earlier = Ok tt) →
      field_check form name = Raise (ValueError s) →
      run_result (_generate_word_cloud_image generate to_file form)
      = Raise (ValueError s)
      ∧ run_form (_generate_word_cloud_image generate to_file form) = form
      ∧ ∀ ev, ev ∈ run_trace (_generate_word_cloud_image generate to_file form)
              → outward ev = false.
Proof.
  intros Hs.
  split; [by apply validate_width_None|].
  split; [by apply validate_height_None|].
  split; [by apply validate_max_words_None|].
  intros Picture generate to_file form name Hahead Hname.
  assert (run_result (_build_image_object form) = Raise (ValueError s))
    as Hbuild.
  { rewrite build_result. by apply (first_failure_at form name). }
  destruct (submit_propagates generate to_file form _ Hbuild)
    as (Hr & Hf & Htr); [done|].
  split; [done|]. split; [done|]. rewrite Htr. apply build_no_outward.
Qed.

(** The string [abc], alone and in the width field of the scenario. *)
Lemma non_numeric_validation_witness :
  Py.int "abc" = None
  ∧ FieldsValidator.validate_width "abc" = Raise (ValueError "abc")
  ∧ FieldsValidator.validate_height "abc" = Raise (ValueError "abc")
  ∧ FieldsValidator.validate_max_words "abc" = Raise (ValueError "abc")
  ∧ field_check form_not_a_number Width = Raise (ValueError "abc")
  ∧ run_result
      (_generate_word_cloud_image generate_ok to_file_ok form_not_a_number)
    = Raise (ValueError "abc").
Proof.
  assert (Py.int "abc" = None) as H by reflexivity.
  destruct (non_numeric_validation "abc" H) as (Hw & Hh & Hm & Hsubmit).
  split; [exact H|]. split; [exact Hw|]. split; [exact Hh|].
  split; [exact Hm|]. split; [reflexivity|].
  apply (Hsubmit unit generate_ok to_file_ok form_not_a_number Width).
  - intros [] Hlt; cbn [field_order] in Hlt; try lia. reflexivity.
  - reflexivity.
Defined.

(** C1 (counterexample). The string [abc] is not a number, and the width
    validation fails on it with a [ValueError], not with a
    [FormException]; submitted in the width field it leaves the submission
    as that [ValueError], without any dialog. *)
Lemma non_numeric_width_not_FormException :
  Py.int "abc" = None
  ∧ FieldsValidator.validate_width "abc" = Raise (ValueError "abc")
  ∧ (¬ ∃ msg, FieldsValidator.validate_width "abc"
              = Raise (FormException msg))
  ∧ _generate_word_cloud_image generate_ok to_file_ok form_not_a_number
    = MkRun form_not_a_number
        [Read TextualContent; Validate TextualContent;
         Read Width; Read Height; Validate Width]
        (Raise (ValueError "abc")).
Proof.
  split; [reflexivity|]. split; [reflexivity|]. split; [|reflexivity].
  intros [msg Hmsg]. discriminate Hmsg.
Qed.

(** C8 (as the code has it). When the validation of a submission
    fails, that is when a validator raises, no configuration is built, the
    generator is not called, no file is written and the form is left as it
    was.  The message of the failure is shown, in the error dialog, when
    the failure is a [FormException]: it is caught and the dialog is the
    only thing the submission does to the outside.  Any other failure, as
    the [ValueError] of [int] in a numeric validator, is not caught: it
    leaves the submission and nothing is shown. *)
Theorem validation_failure_reported (Picture : Type)
    (generate : WordCloud.args → string → string + Picture)
    (to_file : Picture → string → option string)
    (form : Form) (e : exception) :
  run_result (_build_image_object form) = Raise e →
  run_form (_generate_word_cloud_image generate to_file form) = form
  ∧ (∀ ev, ev ∈ run_trace (_generate_word_cloud_image generate to_file form) →
           outward ev = true →
           ∃ msg, e = FormException msg ∧ ev = ShowError "error" msg)
  ∧ (∀ msg, e = FormException msg →
       run_result (_generate_word_cloud_image generate to_file form) = Ok tt
       ∧ run_trace (_generate_word_cloud_image generate to_file form)
         = run_trace (_build_image_object form) ++ [ShowError "error" msg])
  ∧ ((∀ msg, e ≠ FormException msg) →
     run_result (_generate_word_cloud_image generate to_file form) = Raise e
     ∧ run_trace (_generate_word_cloud_image generate to_file form)
       = run_trace (_build_image_object form)).
Proof.
  intros Hbuild.
  assert ((∃ msg, e = FormException msg) ∨ (∀ msg, e ≠ FormException msg))
    as [[msg ->]|Hne].
  { destruct e; [left; by eexists|right; intros; discriminate..]. }
  - rewrite (submit_reports generate to_file form msg Hbuild).
    cbn [run_result run_form run_trace]. split; [done|]. split; [|split].
    + intros ev [Hev|Hev%list_elem_of_singleton]%elem_of_app Hout.
      * apply build_no_outward in Hev. congruence.
      * by exists msg.
    + by intros ? [= <-].
    + intros Hne. by destruct (Hne msg).
  - destruct (submit_propagates generate to_file form e Hbuild)
      as (Hr & Hf & Htr).
    { done. }
    split; [done|]. split; [|split].
    + intros ev Hev Hout. rewrite Htr in Hev.
      apply build_no_outward in Hev. congruence.
    + intros msg ->. by destruct (Hne msg).
    + done.
Qed.

(** The scenario with the width 150. *)
Lemma validation_failure_reported_witness :
  run_result (_build_image_object form_narrow)
  = Raise (FormException "Width needs to be between 400 and 3000.")
  ∧ run_form (_generate_word_cloud_image generate_ok to_file_ok form_narrow)
    = form_narrow
  ∧ run_result (_generate_word_cloud_image generate_ok to_file_ok form_narrow)
    = Ok tt
  ∧ run_trace (_generate_word_cloud_image generate_ok to_file_ok form_narrow)
    = run_trace (_build_image_object form_narrow)
      ++ [ShowError "error" "Width needs to be between 400 and 3000."].
Proof.
  split; [reflexivity|].
  destruct (validation_failure_reported unit generate_ok to_file_ok
              form_narrow
              (FormException "Width needs to be between 400 and 3000.")
              eq_refl) as (Hform & _ & Hshown & _).
  split; [exact Hform|]. exact (Hshown _ eq_refl).
Defined.

(** C8 (counterexample). With [abc] in the width field the validation
    fails inside the width validator, with the [ValueError] of [int]; the
    submission ends with that exception and no dialog has shown a
    message. *)
Lemma non_numeric_failure_not_reported :
  field_check form_not_a_number TextualContent = Ok tt
  ∧ FieldsValidator.validate_width (width_value form_not_a_number)
    = Raise (ValueError "abc")
  ∧ run_result (_build_image_object form_not_a_number)
    = Raise (ValueError "abc")
  ∧ run_result
      (_generate_word_cloud_image generate_ok to_file_ok form_not_a_number)
    = Raise (ValueError "abc")
  ∧ run_trace
      (_generate_word_cloud_image generate_ok to_file_ok form_not_a_number)
    = [Read TextualContent; Validate TextualContent;
       Read Width; Read Height; Validate Width]
  ∧ ¬ ∃ title message,
        ShowError title message
        ∈ run_trace
            (_generate_word_cloud_image generate_ok to_file_ok
               form_not_a_number).
Proof.
  split; [reflexivity|]. split; [reflexivity|]. split; [reflexivity|].
  split; [reflexivity|]. split; [reflexivity|].
  intros (title & message & Hev).
  change (run_trace
            (_generate_word_cloud_image generate_ok to_file_ok
               form_not_a_number))
    with [Read TextualContent; Validate TextualContent;
          Read Width; Read Height; Validate Width] in Hev.
  repeat (apply elem_of_cons in Hev as [Hev|Hev]; [discriminate Hev|]).
  by apply elem_of_nil in Hev.
Qed.

(** C9. When the generation succeeds (the configuration is built, the
    generator returns a picture and the picture is written), the stored
    save path is reset to the empty string, the success dialog shows a
    message that ends with the path the picture was written to, and every
    other field keeps its value. *)
Theorem successful_generation (Picture : Type)
    (generate : WordCloud.args → string → string + Picture)
    (to_file : Picture → string → option string)
    (form : Form) (image : Image.t) (picture : Picture) :
  run_result (_build_image_object form) = Ok image →
  generate (generator_config image) (Image.textual_content image)
  = inr picture →
  to_file picture (Image.file_path image) = None →
  let saved := StringVar_get (_file_path_field form) in
  let r := _generate_word_cloud_image generate to_file form in
  run_result r = Ok tt
  ∧ StringVar_get (_file_path_field (run_form r)) = ""
  ∧ _textual_content_field (run_form r) = _textual_content_field form
  ∧ _width_field (run_form r) = _width_field form
  ∧ _height_field (run_form r) = _height_field form
  ∧ _max_words_field (run_form r) = _max_words_field form
  ∧ _background_color_field (run_form r) = _background_color_field form
  ∧ _colormap_field (run_form r) = _colormap_field form
  ∧ _stopwords_field (run_form r) = _stopwords_field form
  ∧ Image.file_path image = saved
  ∧ run_trace r
    = run_trace (_build_image_object form)
      ++ [Generate (generator_config image) (Image.textual_content image);
          ToFile saved;
          ShowInfo "Success" (success_message saved)]
  ∧ ∃ introduction, success_message saved = introduction +:+ saved.
Proof.
  intros Hbuild Hgen Hfile saved r. subst r.
  rewrite run_generate_word_cloud_image.
  rewrite build_result in Hbuild. rewrite build_trace, Hbuild.
  cbn zeta. rewrite Hgen, Hfile. cbn [run_result run_form run_trace].
  apply first_failure_Ok in Hbuild as (-> & _ & _).
  repeat split. unfold success_message.
  exists ("Your Word Cloud has been successfully generated."
          +:+ " You can find it on the path below:"
          +:+ END_newline +:+ END_newline).
  reflexivity.
Qed.

(** The end-to-end scenario, with a generator and a writer that succeed. *)
Lemma successful_generation_witness :
  run_result (_build_image_object form_example)
  = Ok (configuration form_example)
  ∧ run_result (_generate_word_cloud_image generate_ok to_file_ok form_example)
    = Ok tt
  ∧ StringVar_get
      (_file_path_field
         (run_form
            (_generate_word_cloud_image generate_ok to_file_ok form_example)))
    = ""
  ∧ run_trace (_generate_word_cloud_image generate_ok to_file_ok form_example)
    = run_trace (_build_image_object form_example)
      ++ [Generate (generator_config (configuration form_example))
            "hello world hello";
          ToFile "/tmp/out.png";
          ShowInfo "Success" (success_message "/tmp/out.png")].
Proof.
  split; [reflexivity|].
  destruct (successful_generation unit generate_ok to_file_ok
              form_example (configuration form_example) tt
              eq_refl eq_refl eq_refl)
    as (Hr & Hp & _ & _ & _ & _ & _ & _ & _ & _ & Ht & _).
  split; [exact Hr|]. split; [exact Hp|]. exact Ht.
Defined.

(** C10 (as the code has it). The fields are validated in the order
    text, width, height, max words, file path, and the first failure ends
    the validation: its exception is the one that is raised and whose
    message the submission shows, every field ahead of it passed, no later
    field is validated, and no later field is read, except the height,
    which is read together with the width before the width is validated. *)
Theorem validation_order (form : Form) (e : exception) :
  run_result (_build_image_object form) = Raise e →
  ∃ failing,
    field_check form failing = Raise e
    ∧ (∀ name, (field_order name < field_order failing)%nat →
               field_check form name = Ok tt)
    ∧ last (run_trace (_build_image_object form)) = Some (Validate failing)
    ∧ (∀ name, (field_order failing < field_order name)%nat →
         (Validate name ∉ run_trace (_build_image_object form))
         ∧ (Read name ∈ run_trace (_build_image_object form) →
            failing = Width ∧ name = Height))
    ∧ (∀ (Picture : Type)
         (generate : WordCloud.args → string → string + Picture)
         (to_file : Picture → string → option string) (msg : string),
         e = FormException msg →
         last (run_trace (_generate_word_cloud_image generate to_file form))
         = Some (ShowError "error" msg)).
Proof.
  intros Hbuild. pose proof Hbuild as He.
  rewrite build_result in He.
  destruct (first_failure_field form e He)
    as (failing & Hfail & Hahead & Hlast & Hlater).
  exists failing. rewrite build_trace.
  split; [done|]. split; [done|]. split; [done|]. split; [done|].
  intros Picture generate to_file msg ->.
  rewrite (submit_reports generate to_file form msg Hbuild).
  cbn [run_trace]. apply last_snoc.
Qed.

(** The scenario with the width 150: the width is the field that fails. *)
Lemma validation_order_witness :
  run_result (_build_image_object form_narrow)
  = Raise (FormException "Width needs to be between 400 and 3000.")
  ∧ ∃ failing,
      field_check form_narrow failing
      = Raise (FormException "Width needs to be between 400 and 3000.")
      ∧ (∀ name, (field_order name < field_order failing)%nat →
                 field_check form_narrow name = Ok tt)
      ∧ last (run_trace (_build_image_object form_narrow))
        = Some (Validate failing).
Proof.
  split; [reflexivity|].
  destruct (validation_order form_narrow
              (FormException "Width needs to be between 400 and 3000.")
              eq_refl) as (failing & Hfail & Hahead & Hlast & _).
  exists failing. split; [exact Hfail|]. split; [exact Hahead|exact Hlast].
Defined.

(** C10 (counterexample). With a width below the range the validation
    fails at the width, and the height, a later field, has been read. *)
Lemma height_read_before_width_fails :
  field_check form_narrow TextualContent = Ok tt
  ∧ run_result (_build_image_object form_narrow)
    = Raise (FormException "Width needs to be between 400 and 3000.")
  ∧ run_trace (_build_image_object form_narrow)
    = [Read TextualContent; Validate TextualContent;
       Read Width; Read Height; Validate Width]
  ∧ Read Height ∈ run_trace (_build_image_object form_narrow).
Proof.
  split; [reflexivity|]. split; [reflexivity|]. split; [reflexivity|].
  change (run_trace (_build_image_object form_narrow))
    with [Read TextualContent; Validate TextualContent;
          Read Width; Read Height; Validate Width].
  do 3 apply list_elem_of_further. apply list_elem_of_here.
Qed.

(** * Further properties of the code *)

(** ** Trimming *)

Section Trimming.

Import Py.

Lemma rstrip_rstrip s : rstrip (rstrip s) = rstrip s.
Proof.
  induction s as [|c r IH]; [done|]. cbn [rstrip].
  destruct (rstrip r) as [|a q] eqn:Hr.
  - destruct (isspace c) eqn:Hc; [done|]. cbn [rstrip]. by rewrite Hc.
  - cbn [rstrip] in IH |- *. by rewrite IH.
Qed.

(** [rstrip] keeps a first character that is not white space. *)
Lemma rstrip_head c r :
  isspace c = false → ∃ r', rstrip (String c r) = String c r'.
Proof.
  intros Hc. cbn [rstrip]. destruct (rstrip r); rewrite ?Hc; by eexists.
Qed.

Lemma lstrip_strip s : lstrip (strip s) = strip s.
Proof.
  unfold strip. destruct (lstrip s) as [|c r] eqn:Hl; [done|].
  apply lstrip_head in Hl. destruct (rstrip_head c r Hl) as [r' ->].
  cbn [lstrip]. by rewrite Hl.
Qed.

Lemma rstrip_strip s : rstrip (strip s) = strip s.
Proof. apply rstrip_rstrip. Qed.

Lemma strip_strip s : strip (strip s) = strip s.
Proof. unfold strip at 1. by rewrite lstrip_strip, rstrip_strip. Qed.

(** White space at the end does not count for [rstrip]. *)
Lemma rstrip_app_space s t : all_space t = true → rstrip (s +:+ t) = rstrip s.
Proof.
  intros Ht. induction s as [|c r IH].
  - change ("" +:+ t) with t. by apply rstrip_nil_iff.
  - change (String c r +:+ t) with (String c (r +:+ t)).
    cbn [rstrip]. by rewrite IH.
Qed.

(** What follows is kept by [rstrip] when it is not empty and has no
    white space at its end. *)
Lemma rstrip_app_fixed s t : t ≠ "" → rstrip t = t → rstrip (s +:+ t) = s +:+ t.
Proof.
  intros Hne Ht. induction s as [|c r IH]; [done|].
  change (String c r +:+ t) with (String c (r +:+ t)).
  cbn [rstrip]. rewrite IH. destruct (r +:+ t) eqn:Hrt; [|done].
  destruct r; [|done]. by destruct Hne.
Qed.

Lemma contains_lstrip ch s :
  contains ch s = false → contains ch (lstrip s) = false.
Proof.
  induction s as [|c r IH]; [done|]. cbn [contains lstrip].
  intros [Hc Hr]%orb_false_elim. destruct (isspace c); [by apply IH|].
  cbn [contains]. by rewrite Hc, Hr.
Qed.

Lemma contains_rstrip ch s :
  contains ch s = false → contains ch (rstrip s) = false.
Proof.
  induction s as [|c r IH]; [done|]. cbn [contains rstrip].
  intros [Hc Hr]%orb_false_elim. specialize (IH Hr).
  destruct (rstrip r) as [|a q].
  - destruct (isspace c); [done|]. cbn [contains]. by rewrite Hc.
  - cbn [contains] in IH |- *. by rewrite Hc, IH.
Qed.

Lemma contains_strip ch s : contains ch s = false → contains ch (strip s) = false.
Proof. intros H. by apply contains_rstrip, contains_lstrip. Qed.

(** X1. What the form reads from a text widget or from a box is trimmed:
    trimming it again changes nothing, it carries no white space at either
    end, it is never a bare newline, and it is empty exactly when the
    widget holds white space only. *)
Theorem field_values_trimmed :
  (∀ field : Text,
     let value := FieldUtils.get_text_value field in
     strip value = value ∧ lstrip value = value ∧ rstrip value = value
     ∧ value ≠ END_newline
     ∧ (value = "" ↔ all_space (Text_contents field) = true))
  ∧ (∀ field : Spinbox + Combobox,
       let value := FieldUtils.get_box_value field in
       strip value = value ∧ lstrip value = value ∧ rstrip value = value
       ∧ value ≠ END_newline
       ∧ (value = ""
          ↔ all_space (match field with
                       | inl spin => Spinbox_get spin
                       | inr combo => Combobox_get combo
                       end) = true)).
Proof.
  split.
  - intros field value. subst value. unfold FieldUtils.get_text_value.
    split; [apply strip_strip|]. split; [apply lstrip_strip|].
    split; [apply rstrip_strip|]. split; [apply strip_not_newline|].
    rewrite strip_nil_iff. unfold Text_get. rewrite all_space_app.
    cbn [all_space]. by rewrite andb_true_r.
  - intros field value. subst value. unfold FieldUtils.get_box_value.
    split; [apply strip_strip|]. split; [apply lstrip_strip|].
    split; [apply rstrip_strip|]. split; [apply strip_not_newline|].
    apply strip_nil_iff.
Qed.

End Trimming.

(** ** Numbers in the boxes *)

Section BoxNumbers.

Import Py FieldsValidator.

Lemma int_space_isspace c : int_space c = true → isspace c = true.
Proof.
  unfold int_space, isspace. generalize (ord c). intros n. cbn zeta.
  destruct (Z.leb_spec 9 n), (Z.leb_spec n 13), (Z.leb_spec 28 n),
    (Z.leb_spec n 32), (Z.eqb_spec n 32), (Z.eqb_spec n 133),
    (Z.eqb_spec n 160); cbn [andb orb]; try done; lia.
Qed.

Lemma all_int_space_all_space s : all_int_space s = true → all_space s = true.
Proof.
  induction s as [|c r IH]; [done|]. cbn [all_int_space all_space].
  intros [Hc Hr]%andb_prop. by rewrite (int_space_isspace c Hc), IH.
Qed.

Lemma digit_not_space c d : digit_value c = Some d → isspace c = false.
Proof.
  unfold digit_value, isspace. generalize (ord c). intros n. cbn zeta.
  destruct (Z.leb_spec 48 n), (Z.leb_spec n 57); cbn [andb]; [|done..].
  intros _.
  destruct (Z.leb_spec 9 n), (Z.leb_spec n 13), (Z.leb_spec 28 n),
    (Z.leb_spec n 32), (Z.eqb_spec n 133), (Z.eqb_spec n 160);
    cbn [andb orb]; try done; lia.
Qed.

(** [rstrip] goes past a first character that is not white space. *)
Lemma rstrip_cons c r :
  isspace c = false → rstrip (String c r) = String c (rstrip r).
Proof. intros Hc. cbn [rstrip]. destruct (rstrip r); by rewrite ?Hc. Qed.

(** [int] on a string that does not start with the white space it skips. *)
Lemma int_cons c r :
  int_space c = false →
  int (String c r) =
    if decide (c = "+"%char) then int_magnitude r
    else if decide (c = "-"%char) then Z.opp <$> int_magnitude r
    else int_magnitude (String c r).
Proof.
  intros Hc. unfold int. cbn [skip_int_space]. rewrite Hc.
  destruct c as [[] [] [] [] [] [] [] []]; reflexivity.
Qed.

Lemma int_skip s : int (skip_int_space s) = int s.
Proof.
  induction s as [|c r IH]; [done|]. cbn [skip_int_space].
  destruct (int_space c) eqn:Hc; [|done].
  rewrite IH. unfold int. cbn [skip_int_space]. by rewrite Hc.
Qed.

Lemma int_magnitude_digit s n :
  int_magnitude s = Some n → ∃ c r d, s = String c r ∧ digit_value c = Some d.
Proof.
  destruct s as [|c r]; [done|]. unfold int_magnitude.
  destruct (digit_value c) as [d|] eqn:Hd; [|done]. intros _. by eexists _, _, _.
Qed.

(** The scan does not see the white space [rstrip] takes off. *)
Lemma scan_digits_rstrip s : ∀ prev_us acc digits v k rest,
  scan_digits prev_us acc digits s = Some (v, k, rest) →
  all_int_space rest = true →
  scan_digits prev_us acc digits (rstrip s) = Some (v, k, "").
Proof.
  induction s as [|c r IH]; intros prev_us acc digits v k rest.
  - cbn [scan_digits rstrip]. destruct prev_us; [done|]. by intros [= <- <- <-].
  - cbn [scan_digits]. case_decide as Hus.
    + destruct prev_us; [done|]. intros Hscan Hrest.
      rewrite rstrip_cons by by subst c.
      cbn [scan_digits]. rewrite decide_True by done. by eapply IH.
    + destruct (digit_value c) as [d|] eqn:Hd.
      * intros Hscan Hrest. rewrite rstrip_cons by by eapply digit_not_space.
        cbn [scan_digits]. rewrite decide_False by done. rewrite Hd.
        by eapply IH.
      * destruct prev_us; [done|]. intros [= <- <- <-] Hrest.
        apply all_int_space_all_space, rstrip_nil_iff in Hrest.
        by rewrite Hrest.
Qed.

Lemma int_magnitude_rstrip s n :
  int_magnitude s = Some n → int_magnitude (rstrip s) = Some n.
Proof.
  intros Hs. destruct (int_magnitude_digit s n Hs) as (c & r & d & -> & Hd).
  revert Hs. rewrite rstrip_cons by by eapply digit_not_space.
  unfold int_magnitude. rewrite Hd.
  destruct (scan_digits false 0 0 (String c r)) as [[[v k] rest]|] eqn:Hscan;
    [|done].
  destruct (k <=? max_str_digits) eqn:Hk; [|done]. cbn [andb].
  destruct (all_int_space rest) eqn:Hrest; [|done]. intros [= <-].
  apply scan_digits_rstrip in Hscan; [|done].
  rewrite rstrip_cons in Hscan by by eapply digit_not_space.
  by rewrite Hscan, Hk.
Qed.

Lemma int_rstrip c r n :
  int_space c = false →
  int (String c r) = Some n → isspace c = false ∧ int (rstrip (String c r)) = Some n.
Proof.
  intros Hc. rewrite (int_cons c r Hc).
  destruct (decide (c = "+"%char)) as [->|Hplus];
    [|destruct (decide (c = "-"%char)) as [->|Hminus]].
  - intros Hm. split; [done|]. rewrite rstrip_cons by done.
    rewrite int_cons by done. rewrite decide_True by done.
    by apply int_magnitude_rstrip.
  - intros Hm. split; [done|]. rewrite rstrip_cons by done.
    rewrite int_cons by done. rewrite decide_False, decide_True by done.
    destruct (int_magnitude r) as [m|] eqn:Hr; [|done].
    by rewrite (int_magnitude_rstrip r m Hr).
  - intros Hm. destruct (int_magnitude_digit _ _ Hm) as (c' & r' & d & [= <- <-] & Hd).
    pose proof (digit_not_space c d Hd) as Hsp. split; [done|].
    pose proof (int_magnitude_rstrip _ _ Hm) as Hm'.
    rewrite rstrip_cons in Hm' |- * by done.
    rewrite int_cons by done. by rewrite !decide_False by done.
Qed.

(** Trimming does not change a number [int] reads. *)
Lemma int_strip s n : int s = Some n → int (strip s) = Some n.
Proof.
  unfold strip. induction s as [|c r IH]; [done|].
  cbn [lstrip]. destruct (int_space c) eqn:Hc.
  - rewrite (int_space_isspace c Hc). intros Hs. apply IH.
    rewrite <-Hs, <-(int_skip (String c r)). cbn [skip_int_space].
    rewrite Hc. by rewrite int_skip.
  - intros Hs. destruct (int_rstrip c r n Hc Hs) as [Hsp Hr]. by rewrite Hsp.
Qed.

(** X2. Trimming a box never changes the number in it: when [int] reads
    the text of a spin box as [n], it reads the value the form takes from
    the box as [n] too, so the validators judge [n]. *)
Theorem box_number_survives_trimming (spin : Spinbox) (n : Z) :
  Py.int (Spinbox_get spin) = Some n →
  Py.int (FieldUtils.get_box_value (inl spin)) = Some n
  ∧ (validate_width (FieldUtils.get_box_value (inl spin)) = Ok tt
     ↔ MIN_WIDTH_IMAGE ≤ n ≤ MAX_WIDTH_IMAGE)
  ∧ (validate_height (FieldUtils.get_box_value (inl spin)) = Ok tt
     ↔ MIN_HEIGHT_IMAGE ≤ n ≤ MAX_HEIGHT_IMAGE)
  ∧ (validate_max_words (FieldUtils.get_box_value (inl spin)) = Ok tt
     ↔ MIN_NUM_WORDS ≤ n ≤ MAX_NUM_WORDS).
Proof.
  intros Hn. apply int_strip in Hn.
  change (strip (Spinbox_get spin))
    with (FieldUtils.get_box_value (inl spin)) in Hn.
  split; [done|].
  rewrite (validate_width_Some _ n Hn), (validate_height_Some _ n Hn),
    (validate_max_words_Some _ n Hn).
  repeat split; repeat case_decide; try done; lia.
Qed.

(** A width typed with spaces around it. *)
Lemma box_number_survives_trimming_witness :
  Py.int "  1_024 " = Some 1024
  ∧ Py.int (FieldUtils.get_box_value (inl {| Spinbox_get := "  1_024 " |}))
    = Some 1024
  ∧ validate_width (FieldUtils.get_box_value (inl {| Spinbox_get := "  1_024 " |}))
    = Ok tt.
Proof.
  assert (Py.int "  1_024 " = Some 1024) as H by reflexivity.
  destruct (box_number_survives_trimming {| Spinbox_get := "  1_024 " |}
              1024 H) as (Hint & Hw & _).
  split; [exact H|]. split; [exact Hint|].
  apply Hw. unfold MIN_WIDTH_IMAGE, MAX_WIDTH_IMAGE. lia.
Defined.

(** Trimming can make a number of a text [int] refuses: the separator 28
    is white space for [strip] and not for [int]. *)
Example trimming_makes_a_number :
  Py.int (String "028" "400") = None
  ∧ Py.int (FieldUtils.get_box_value
              (inl {| Spinbox_get := String "028" "400" |})) = Some 400.
Proof. split; reflexivity. Qed.

(** X3. A spin box that is empty or holds white space only is reported
    as an empty field, with the message of its validator. *)
Theorem blank_box_is_empty_field (spin : Spinbox) :
  all_space (Spinbox_get spin) = true →
  FieldUtils.get_box_value (inl spin) = ""
  ∧ validate_width (FieldUtils.get_box_value (inl spin))
    = Raise (FormException "Width cannot be empty.")
  ∧ validate_height (FieldUtils.get_box_value (inl spin))
    = Raise (FormException "Height cannot be empty.")
  ∧ validate_max_words (FieldUtils.get_box_value (inl spin))
    = Raise (FormException "Max Words cannot be empty.").
Proof.
  intros Hblank%strip_nil_iff. unfold FieldUtils.get_box_value.
  rewrite Hblank. by repeat split.
Qed.

Lemma blank_box_is_empty_field_witness :
  validate_width (FieldUtils.get_box_value (inl {| Spinbox_get := "   " |}))
  = Raise (FormException "Width cannot be empty.").
Proof.
  apply (blank_box_is_empty_field {| Spinbox_get := "   " |}). reflexivity.
Defined.

End BoxNumbers.

(** ** The file path, by its parts *)

Section FilePathParts.

Import Py FieldsValidator.

(** X4. A path [dir/stem.ext] is judged by its stem alone, whatever the
    directory and the extension (which may hold further dots): it is
    refused exactly when the stem is white space, one character at least;
    so a name without a stem, as [.png], is accepted.  The same holds
    without a directory and without an extension. *)
Theorem file_path_judged_by_stem (dir stem ext : string) :
  contains "/" stem = false →
  contains "." stem = false →
  contains "/" ext = false →
  let verdict :=
    if str_isspace stem
    then Raise (FormException "File name cannot be empty.")
    else Ok tt in
  validate_file_path (dir +:+ String "/" (stem +:+ String "." ext)) = verdict
  ∧ validate_file_path (stem +:+ String "." ext) = verdict
  ∧ validate_file_path (dir +:+ String "/" stem) = verdict.
Proof.
  intros Hsl Hdot Hext verdict. subst verdict.
  assert (contains "/" (stem +:+ String "." ext) = false) as Hname.
  { rewrite contains_app, Hsl. cbn [contains orb]. by rewrite Hext. }
  split; [|split].
  - rewrite (validate_file_path_stem _ stem (split "." ext)); [done|..].
    + apply truthy_app_sep.
    + rewrite (basename_app _ _ Hname). by apply split_app_sep.
  - rewrite (validate_file_path_stem _ stem (split "." ext)); [done|..].
    + apply truthy_app_sep.
    + rewrite (basename_no_dir _ Hname). by apply split_app_sep.
  - rewrite (validate_file_path_stem _ stem []); [done|..].
    + apply truthy_app_sep.
    + rewrite (basename_app _ _ Hsl). by apply split_absent.
Qed.

(** A name with two extensions in a directory with a dot. *)
Lemma file_path_judged_by_stem_witness :
  validate_file_path "/home/user.name/cloud.v2.png" = Ok tt
  ∧ validate_file_path "cloud.v2.png" = Ok tt.
Proof.
  destruct (file_path_judged_by_stem "/home/user.name" "cloud" "v2.png"
              eq_refl eq_refl eq_refl) as (Hfull & Hname & _).
  split; [exact Hfull|exact Hname].
Defined.

End FilePathParts.

(** ** Stopwords, once more *)

Section StopwordsInvariant.

Import Py.

Lemma split_no_sep sep s piece :
  piece ∈ split sep s → contains sep piece = false.
Proof.
  revert piece. induction s as [|c r IH]; intros piece.
  - cbn [split]. by intros ->%list_elem_of_singleton.
  - cbn [split]. case_decide as Hc.
    + intros [->|Hin]%elem_of_cons; [done|by apply IH].
    + destruct (split_cons sep r) as (h & t & Hr). rewrite Hr in IH |- *.
      intros [->|Hin]%elem_of_cons.
      * cbn [contains]. rewrite bool_decide_eq_false_2 by done.
        apply IH, list_elem_of_here.
      * by apply IH, list_elem_of_further.
Qed.

Lemma stopwords_are_clean_parsed raw word :
  word ∈ parse_stopwords raw → clean_word word.
Proof.
  intros (Hne & token & Hin & ->)%elem_of_parse_stopwords.
  split; [done|]. split; [apply lstrip_strip|]. split; [apply rstrip_strip|].
  by apply contains_strip, (split_no_sep "," raw).
Qed.

(** X6. Every stopword of the parsed set is clean: it is not empty, it
    has no white space at either end, and it holds no comma. *)
Theorem stopwords_are_clean (raw word : string) :
  word ∈ parse_stopwords raw → clean_word word.
Proof. apply stopwords_are_clean_parsed. Qed.

Lemma stopwords_are_clean_witness :
  "new york" ∈ parse_stopwords " new york ,, b" ∧ clean_word "new york".
Proof.
  assert ("new york" ∈ parse_stopwords " new york ,, b") as H.
  { apply elem_of_parse_stopwords. split; [done|].
    exists " new york ". split; [|reflexivity].
    change (split "," " new york ,, b") with [" new york "; ""; " b"].
    apply list_elem_of_here. }
  split; [exact H|]. exact (stopwords_are_clean _ _ H).
Defined.

End StopwordsInvariant.

(** ** Writing stopwords down and reading them back *)

Section StopwordsRoundTrip.

Import Py.

Lemma append_assoc s t u : (s +:+ t) +:+ u = s +:+ t +:+ u.
Proof.
  induction s as [|c r IH]; [done|].
  change ((String c r +:+ t) +:+ u) with (String c ((r +:+ t) +:+ u)).
  by rewrite IH.
Qed.

Lemma append_nil_r s : s +:+ "" = s.
Proof.
  induction s as [|c r IH]; [done|].
  change (String c r +:+ "") with (String c (r +:+ "")). by rewrite IH.
Qed.

Lemma clean_word_strip word : clean_word word → strip word = word.
Proof. intros (_ & Hl & Hr & _). unfold strip. by rewrite Hl. Qed.

Lemma clean_word_head word :
  clean_word word → ∃ c r, word = String c r ∧ isspace c = false.
Proof.
  intros (Hne & Hl & _). destruct word as [|c r]; [done|].
  exists c, r. split; [done|]. by eapply lstrip_head.
Qed.

(** The pieces of a list of words written with [", "] between them. *)
Lemma split_join words : ∀ prefix,
  Forall clean_word words →
  contains "," prefix = false →
  split "," (prefix +:+ join ", " words) =
    match words with
    | [] => [prefix]
    | word :: rest => (prefix +:+ word) :: ((λ w, " " +:+ w) <$> rest)
    end.
Proof.
  induction words as [|word rest IH]; intros prefix Hwords Hprefix.
  - cbn [join]. rewrite append_nil_r. by apply split_absent.
  - apply Forall_cons in Hwords as [(_ & _ & _ & Hword) Hrest].
    destruct rest as [|word' rest'].
    + cbn [join fmap list_fmap]. apply split_absent.
      by rewrite contains_app, Hprefix, Hword.
    + change (join ", " (word :: word' :: rest'))
        with (word +:+ String "," (" " +:+ join ", " (word' :: rest'))).
      rewrite <-append_assoc, split_app_sep
        by by rewrite contains_app, Hprefix, Hword.
      by rewrite (IH " " Hrest).
Qed.

Lemma parse_join words :
  Forall clean_word words → parse_stopwords (join ", " words) = list_to_set words.
Proof.
  intros Hwords. unfold parse_stopwords. f_equal.
  change (join ", " words) with ("" +:+ join ", " words).
  rewrite (split_join words "" Hwords eq_refl).
  destruct Hwords as [|word rest Hword Hrest]; [done|].
  change ("" +:+ word) with word. cbn [fmap list_fmap].
  rewrite (clean_word_strip word Hword), filter_cons_True
    by by destruct Hword as [? _], word.
  f_equal. induction Hrest as [|w ws Hw Hws IH]; [done|].
  cbn [fmap list_fmap]. change (strip (" " +:+ w)) with (strip w).
  rewrite (clean_word_strip w Hw), filter_cons_True
    by by destruct Hw as [? _], w.
  by f_equal.
Qed.

(** The written list ends with its last word. *)
Lemma join_last sep words :
  words ≠ [] → ∃ front word, join sep words = front +:+ word
                             ∧ last words = Some word.
Proof.
  induction words as [|w rest IH]; [done|]. intros _.
  destruct rest as [|w' rest'].
  - by exists "", w.
  - destruct IH as (front & word & Hjoin & Hlast); [done|].
    exists (w +:+ sep +:+ front), word. split; [|done].
    change (join sep (w :: w' :: rest'))
      with (w +:+ sep +:+ join sep (w' :: rest')).
    by rewrite Hjoin, !append_assoc.
Qed.

Lemma strip_join_newline words :
  Forall clean_word words → words ≠ [] →
  strip (join ", " words +:+ END_newline) = join ", " words.
Proof.
  intros Hwords Hne.
  assert (∃ c r, join ", " words = String c r ∧ isspace c = false)
    as (c & r & Hhead & Hc).
  { destruct Hwords as [|word rest Hword _]; [done|].
    destruct (clean_word_head word Hword) as (c & r & -> & Hc).
    destruct rest; by eexists _, _. }
  destruct (join_last ", " words Hne) as (front & word & Hjoin & Hlast).
  assert (clean_word word) as (Hword & _ & Hr & _).
  { apply (proj1 (Forall_forall _ _) Hwords).
    apply last_Some in Hlast as [l' ->]. apply elem_of_app. right.
    apply list_elem_of_here. }
  unfold strip. rewrite Hhead.
  change (String c r +:+ END_newline) with (String c (r +:+ END_newline)).
  cbn [lstrip]. rewrite Hc.
  change (String c (r +:+ END_newline)) with (String c r +:+ END_newline).
  rewrite rstrip_app_space by done. rewrite <-Hhead, Hjoin.
  by apply rstrip_app_fixed.
Qed.

(** X7. Clean words written into the stopwords field with a comma and
    a space between them are read back as exactly their set: there is no
    word lost, none added, and their order and repetitions do not count. *)
Theorem stopwords_round_trip (words : list string) (form : Form) :
  Forall clean_word words →
  words ≠ [] →
  Text_contents (_stopwords_field form) = join ", " words →
  parse_stopwords (join ", " words) = list_to_set words
  ∧ run_result (_get_stopwords form) = Ok (Some (list_to_set words)).
Proof.
  intros Hwords Hne Hfield. split; [by apply parse_join|].
  rewrite run_get_stopwords. cbn [run_result].
  unfold stopwords_value, FieldUtils.get_text_value, Text_get.
  rewrite Hfield, (strip_join_newline words Hwords Hne).
  rewrite (parse_join words Hwords).
  destruct (join_last ", " words Hne) as (front & word & -> & Hlast).
  assert (clean_word word) as (Hword & _).
  { apply (proj1 (Forall_forall _ _) Hwords).
    apply last_Some in Hlast as [l' ->]. apply elem_of_app. right.
    apply list_elem_of_here. }
  by destruct front, word.
Qed.

Lemma stopwords_round_trip_witness :
  join ", " ["the"; "new york"; "the"] = "the, new york, the"
  ∧ run_result
      (_get_stopwords
         (set_stopwords_field {| Text_contents := "the, new york, the" |}
            form_example))
    = Ok (Some {[ "the"; "new york" ]}).
Proof.
  split; [reflexivity|].
  assert (Forall clean_word ["the"; "new york"; "the"]) as Hwords
    by (repeat constructor; done).
  destruct (stopwords_round_trip ["the"; "new york"; "the"]
              (set_stopwords_field {| Text_contents := "the, new york, the" |}
                 form_example) Hwords ltac:(done) eq_refl) as [_ Hrun].
  rewrite Hrun. reflexivity.
Defined.

End StopwordsRoundTrip.

(** ** The colormap and the background colour *)

Section Choices.

(** Trimming changes none of the names of the palette. *)
Lemma colormap_values_trimmed name :
  name ∈ colormap_values → Py.strip name = name.
Proof.
  assert (forallb (λ name, String.eqb (Py.strip name) name) colormap_values
          = true) as Hall by (vm_compute; reflexivity).
  intros Hin%list_elem_of_In.
  by apply String.eqb_eq, (proj1 (forallb_forall _ _) Hall).
Qed.

(** X8. Whichever entry of the palette the combo box shows, the
    configuration that is built holds exactly that entry as its colormap:
    the value is read from the box and the trimming changes none of the
    names. *)
Theorem colormap_is_selected_entry (form : Form) (image : Image.t)
    (i : nat) (name : string) :
  colormap_values !! i = Some name →
  _colormap_field form = Combobox_current i (_colormap_field build) →
  run_result (_build_image_object form) = Ok image →
  Image.colormap image = name ∧ Image.colormap image ∈ colormap_values.
Proof.
  intros Hi Hbox. rewrite build_result. intros (-> & _)%first_failure_Ok.
  cbn [configuration Image.colormap]. unfold colormap_value.
  rewrite Hbox. unfold FieldUtils.get_box_value, Combobox_current.
  cbn [Combobox_get Combobox_values _colormap_field build
       _add_select_colormap_combobox Combobox_current].
  rewrite Hi. cbn [default from_option id].
  assert (name ∈ colormap_values) as Hin by by eapply list_elem_of_lookup_2.
  by rewrite (colormap_values_trimmed name Hin).
Qed.

Lemma colormap_is_selected_entry_witness :
  colormap_values !! 165%nat = Some "winter_r"
  ∧ ∃ image,
      run_result
        (_build_image_object
           (set_colormap_field
              (Combobox_current 165 (_colormap_field build)) form_example))
      = Ok image
      ∧ Image.colormap image = "winter_r".
Proof.
  split; [reflexivity|]. eexists. split; [reflexivity|].
  eapply (colormap_is_selected_entry
            (set_colormap_field
               (Combobox_current 165 (_colormap_field build)) form_example)
            _ 165 "winter_r"); reflexivity.
Defined.

(** X9. The colour dialog changes the background colour of the
    configuration and nothing else: the validation of every field gives
    what it gave, and a configuration that is built differs in its
    background colour only, which is the colour the dialog returned, or
    ["black"] when the dialog was cancelled (so a colour chosen before is
    lost). *)
Theorem background_colorpicker_effect {RGB : Type}
    (colors : option RGB * option string) (form : Form) :
  (∀ name, field_check (_background_colorpicker colors form) name
           = field_check form name)
  ∧ (∀ e, run_result (_build_image_object (_background_colorpicker colors form))
          = Raise e
          ↔ run_result (_build_image_object form) = Raise e)
  ∧ (∀ image, run_result (_build_image_object form) = Ok image →
       ∃ image',
         run_result (_build_image_object (_background_colorpicker colors form))
         = Ok image'
         ∧ Image.background_color image'
           = match colors.2 with
             | Some color => if Py.truthy color then color else "black"
             | None => "black"
             end
         ∧ Image.textual_content image' = Image.textual_content image
         ∧ Image.width image' = Image.width image
         ∧ Image.height image' = Image.height image
         ∧ Image.max_words image' = Image.max_words image
         ∧ Image.colormap image' = Image.colormap image
         ∧ Image.stopwords image' = Image.stopwords image
         ∧ Image.file_path image' = Image.file_path image).
Proof.
  assert (∀ name, field_check (_background_colorpicker colors form) name
                  = field_check form name) as Hcheck by by intros [].
  split; [done|].
  rewrite !build_result. unfold first_failure. rewrite !Hcheck.
  split.
  - intros e. by repeat case_match.
  - intros image.
    destruct (field_check form TextualContent) as [[]|]; [|done].
    destruct (field_check form Width) as [[]|]; [|done].
    destruct (field_check form Height) as [[]|]; [|done].
    destruct (field_check form MaxWords) as [[]|]; [|done].
    destruct (field_check form FilePath) as [[]|]; [|done].
    cbn [snd]. intros [= <-]. eexists. split; [done|].
    split; [|done]. destruct colors as [rgb [color|]]; [|done].
    cbn. by destruct (Py.truthy color).
Qed.

End Choices.

(** ** The getters of the numbers *)

Section Getters.

Lemma int__Ok s n : int_ s = Ok n ↔ Py.int s = Some n.
Proof. unfold int_. destruct (Py.int s); split; congruence. Qed.

(** X10. [_get_dimensions] and [_get_max_words] return numbers within
    the bounds, the ones [int] reads in the trimmed boxes, and what they
    raise is what a validator raised: the [int] calls that follow the
    validation never raise.  Neither changes the form. *)
Theorem numeric_getters_within_bounds (form : Form) :
  match run_result (_get_dimensions form) with
  | Ok (w, h) =>
      MIN_WIDTH_IMAGE ≤ w ≤ MAX_WIDTH_IMAGE
      ∧ MIN_HEIGHT_IMAGE ≤ h ≤ MAX_HEIGHT_IMAGE
      ∧ Py.int (width_value form) = Some w
      ∧ Py.int (height_value form) = Some h
  | Raise e =>
      field_check form Width = Raise e
      ∨ field_check form Width = Ok tt ∧ field_check form Height = Raise e
  end
  ∧ match run_result (_get_max_words form) with
    | Ok m =>
        MIN_NUM_WORDS ≤ m ≤ MAX_NUM_WORDS
        ∧ Py.int (max_words_value form) = Some m
    | Raise e => field_check form MaxWords = Raise e
    end
  ∧ run_form (_get_dimensions form) = form
  ∧ run_form (_get_max_words form) = form.
Proof.
  rewrite run_get_dimensions, run_get_max_words.
  cbn [run_result run_form]. split; [|split; [|done]].
  - destruct (field_check form Width) as [[]|e1] eqn:Hw;
      cbn [mbind result_bind]; [|by left].
    destruct (field_check form Height) as [[]|e2] eqn:Hh;
      cbn [mbind result_bind]; [|by right].
    apply validate_width_Ok in Hw as (w & Hwi & Hwr).
    apply validate_height_Ok in Hh as (h & Hhi & Hhr).
    rewrite Hwi, Hhi. cbn [mbind result_bind].
    by apply int__Ok in Hwi, Hhi.
  - destruct (field_check form MaxWords) as [[]|e] eqn:Hm;
      cbn [mbind result_bind]; [|done].
    apply validate_max_words_Ok in Hm as (m & Hmi & Hmr).
    rewrite Hmi. by apply int__Ok in Hmi.
Qed.

Example numeric_getters_examples :
  run_result (_get_dimensions form_example) = Ok (400, 200)
  ∧ run_result (_get_max_words form_example) = Ok 200
  ∧ run_result (_get_dimensions form_narrow)
    = Raise (FormException "Width needs to be between 400 and 3000.").
Proof. repeat split; reflexivity. Qed.

End Getters.

(** ** The configuration, once built *)

Section BuiltConfiguration.

(** X11. A configuration is built exactly when the five validated
    fields pass, and it then keeps the constraints of its fields: a text
    that is trimmed and not empty, a width, a height and a number of
    words within their bounds, a background colour that is not empty, the
    trimmed value of the colormap box, stopwords that are absent or clean,
    and the save path as it was chosen, not empty.  Building it changes
    no field and does nothing to the outside. *)
Theorem built_configuration_valid (form : Form) (image : Image.t) :
  run_result (_build_image_object form) = Ok image →
  (∀ name, field_check form name = Ok tt)
  ∧ Image.textual_content image ≠ ""
  ∧ Py.strip (Image.textual_content image) = Image.textual_content image
  ∧ MIN_WIDTH_IMAGE ≤ Image.width image ≤ MAX_WIDTH_IMAGE
  ∧ MIN_HEIGHT_IMAGE ≤ Image.height image ≤ MAX_HEIGHT_IMAGE
  ∧ MIN_NUM_WORDS ≤ Image.max_words image ≤ MAX_NUM_WORDS
  ∧ Image.background_color image ≠ ""
  ∧ Image.colormap image = colormap_value form
  ∧ (∀ words, Image.stopwords image = Some words →
              ∀ word, word ∈ words → clean_word word)
  ∧ Image.file_path image = StringVar_get (_file_path_field form)
  ∧ Image.file_path image ≠ ""
  ∧ run_form (_build_image_object form) = form
  ∧ (∀ ev, ev ∈ run_trace (_build_image_object form) → outward ev = false).
Proof.
  rewrite build_result. intros (-> & _ & Hpass)%first_failure_Ok.
  split; [done|].
  pose proof (Hpass TextualContent) as Ht.
  pose proof (Hpass Width) as (w & Hw%int__Ok & Hwr)%validate_width_Ok.
  pose proof (Hpass Height) as (h & Hh%int__Ok & Hhr)%validate_height_Ok.
  pose proof (Hpass MaxWords) as (m & Hm%int__Ok & Hmr)%validate_max_words_Ok.
  pose proof (Hpass FilePath) as Hf.
  cbn [configuration Image.textual_content Image.width Image.height
       Image.max_words Image.background_color Image.colormap
       Image.stopwords Image.file_path].
  rewrite Hw, Hh, Hm. cbn [default from_option id].
  split. { intros Hempty. cbn [field_check] in Ht. by rewrite Hempty in Ht. }
  split; [apply strip_strip|].
  split; [done|]. split; [done|]. split; [done|].
  split.
  { unfold background_chosen.
    destruct (_background_color_field form) as [[|c r]|]; done. }
  split; [done|].
  split.
  { intros words. destruct (Py.truthy (stopwords_value form)); [|done].
    intros [= <-] word. apply stopwords_are_clean_parsed. }
  split; [done|].
  split. { intros Hempty. cbn [field_check] in Hf. by rewrite Hempty in Hf. }
  split; [apply build_form|apply build_no_outward].
Qed.

Lemma built_configuration_valid_witness :
  run_result (_build_image_object form_stopwords)
  = Ok (configuration form_stopwords)
  ∧ Image.width (configuration form_stopwords) = 400
  ∧ MIN_WIDTH_IMAGE ≤ Image.width (configuration form_stopwords)
    ≤ MAX_WIDTH_IMAGE
  ∧ Image.file_path (configuration form_stopwords) ≠ "".
Proof.
  split; [reflexivity|]. split; [reflexivity|].
  destruct (built_configuration_valid form_stopwords
              (configuration form_stopwords) eq_refl)
    as (_ & _ & _ & Hw & _ & _ & _ & _ & _ & _ & Hp & _).
  split; [exact Hw|exact Hp].
Defined.

(** The same facts, on the configuration the form determines. *)
Lemma built_configuration_facts form image :
  run_result (_build_image_object form) = Ok image →
  image = configuration form
  ∧ text_value form ≠ ""
  ∧ MIN_WIDTH_IMAGE ≤ Image.width (configuration form) ≤ MAX_WIDTH_IMAGE
  ∧ MIN_HEIGHT_IMAGE ≤ Image.height (configuration form) ≤ MAX_HEIGHT_IMAGE
  ∧ MIN_NUM_WORDS ≤ Image.max_words (configuration form) ≤ MAX_NUM_WORDS
  ∧ Image.background_color (configuration form) ≠ ""
  ∧ StringVar_get (_file_path_field form) ≠ "".
Proof.
  rewrite build_result. intros (-> & _ & Hpass)%first_failure_Ok.
  split; [done|].
  pose proof (Hpass TextualContent) as Ht.
  pose proof (Hpass Width) as (w & Hw%int__Ok & Hwr)%validate_width_Ok.
  pose proof (Hpass Height) as (h & Hh%int__Ok & Hhr)%validate_height_Ok.
  pose proof (Hpass MaxWords) as (m & Hm%int__Ok & Hmr)%validate_max_words_Ok.
  pose proof (Hpass FilePath) as Hf.
  cbn [configuration Image.width Image.height Image.max_words
       Image.background_color].
  rewrite Hw, Hh, Hm. cbn [default from_option id].
  split. { intros Hempty. cbn [field_check] in Ht. by rewrite Hempty in Ht. }
  split; [done|]. split; [done|]. split; [done|].
  split.
  { unfold background_chosen.
    destruct (_background_color_field form) as [[|c r]|]; done. }
  intros Hempty. cbn [field_check] in Hf. unfold file_path_value in Hf.
  by rewrite Hempty in Hf.
Qed.

(** Conversely, fields that all pass give a configuration. *)
Lemma build_succeeds form :
  (∀ name, field_check form name = Ok tt) →
  run_result (_build_image_object form) = Ok (configuration form).
Proof.
  intros Hpass. by rewrite build_result, (first_failure_all_pass form Hpass).
Qed.

End BuiltConfiguration.

(** ** Submissions, case by case *)

(** Find an event in a trace that ends with a known list: it is not in
    the part of the validation, where nothing reaches the outside. *)
Ltac member_of_trace Hin Hev :=
  apply elem_of_app in Hev as [Hev|Hev];
  [ exfalso; revert Hev; by apply Hin
  | repeat (apply elem_of_cons in Hev as [Hev|Hev]; [try discriminate Hev|]);
    try by apply elem_of_nil in Hev ].

Section SubmissionCases.

Context {Picture : Type}.
Variable generate : WordCloud.args → string → string + Picture.
Variable to_file : Picture → string → option string.

Abbreviation submission := (_generate_word_cloud_image generate to_file).

Lemma first_failure_no_dialog form :
  filter (λ ev, dialog ev = true) (first_failure form).1 = [].
Proof.
  unfold first_failure, trace_file_path, trace_max_words, trace_height,
    trace_width, trace_text.
  repeat case_match; reflexivity.
Qed.

(** X12. A submission with an empty text reads the text field and
    nothing else, whatever the other fields hold, and shows the error
    dialog of the empty text. *)
Theorem blank_text_submission (form : Form) :
  Py.all_space (Text_contents (_textual_content_field form)) = true →
  submission form
  = MkRun form
      [Read TextualContent; Validate TextualContent;
       ShowError "error" "Textual content cannot be empty."]
      (Ok tt).
Proof.
  intros Hblank. rewrite run_generate_word_cloud_image.
  unfold first_failure. cbn [field_check].
  unfold text_value, FieldsValidator.validate_text_content.
  by rewrite get_text_value_truthy, Hblank.
Qed.

(** X13. The generator is called with a validated configuration only:
    a call of the generator in a submission has the sizes and the number
    of words within their bounds, the seed 1, the collocations off, and
    the trimmed, non-empty text of the form; a file is written to the
    path of the form only, after such a call. *)
Theorem generator_called_with_valid_configuration (form : Form) :
  (∀ config text,
     Generate config text ∈ run_trace (submission form) →
     MIN_WIDTH_IMAGE ≤ WordCloud.width config ≤ MAX_WIDTH_IMAGE
     ∧ MIN_HEIGHT_IMAGE ≤ WordCloud.height config ≤ MAX_HEIGHT_IMAGE
     ∧ MIN_NUM_WORDS ≤ WordCloud.max_words config ≤ MAX_NUM_WORDS
     ∧ WordCloud.random_state config = 1
     ∧ WordCloud.collocations config = false
     ∧ WordCloud.background_color config ≠ ""
     ∧ text = text_value form ∧ text ≠ ""
     ∧ run_result (_build_image_object form) = Ok (configuration form)
     ∧ config = generator_config (configuration form))
  ∧ (∀ file_path,
       ToFile file_path ∈ run_trace (submission form) →
       file_path = StringVar_get (_file_path_field form)
       ∧ file_path ≠ ""
       ∧ Generate (generator_config (configuration form)) (text_value form)
         ∈ run_trace (submission form)).
Proof.
  rewrite run_generate_word_cloud_image. cbn zeta.
  assert (∀ ev, outward ev = true → ev ∉ (first_failure form).1) as Hin.
  { intros ev Hout Hev%first_failure_no_outward. congruence. }
  destruct ((first_failure form).2) as [image|e] eqn:Hbuild.
  - pose proof Hbuild as Hok. rewrite <-build_result in Hok.
    destruct (built_configuration_facts form image Hok)
      as (-> & Ht & Hw & Hh & Hm & Hbg & Hp).
    change (Image.textual_content (configuration form))
      with (text_value form).
    change (Image.file_path (configuration form))
      with (StringVar_get (_file_path_field form)).
    split.
    + intros config text Hev.
      assert (Generate config text
              = Generate (generator_config (configuration form))
                  (text_value form)) as [= -> ->]; [|done].
      destruct (generate _ _) as [err|picture];
        [|destruct (to_file _ _) as [err|]]; cbn [run_trace] in Hev;
        member_of_trace Hin Hev; done.
    + intros file_path Hev.
      assert (ToFile file_path = ToFile (StringVar_get (_file_path_field form)))
        as [= ->].
      { destruct (generate _ _) as [err|picture];
          [|destruct (to_file _ _) as [err|]]; cbn [run_trace] in Hev;
          member_of_trace Hin Hev; done. }
      split; [done|]. split; [done|].
      destruct (generate _ _) as [err|picture].
      { cbn [run_trace] in Hev. member_of_trace Hin Hev. }
      destruct (to_file _ _) as [err|]; cbn [run_trace]; apply elem_of_app;
        right; apply list_elem_of_here.
  - assert (∀ ev, outward ev = true → (∀ t m, ev ≠ ShowError t m) →
              ev ∉ run_trace
                     match e with
                     | FormException msg =>
                         MkRun form
                           ((first_failure form).1 ++ [ShowError "error" msg])
                           (Ok tt)
                     | _ => MkRun form (first_failure form).1 (Raise e)
                     end) as Hno.
    { intros ev Hout Hne. destruct e; cbn [run_trace]; try by apply Hin.
      intros [Hev|Hev%list_elem_of_singleton]%elem_of_app.
      - by apply (Hin ev).
      - by apply (Hne "error" msg). }
    split.
    + intros config text Hev. by apply (Hno (Generate config text)) in Hev.
    + intros file_path Hev. by apply (Hno (ToFile file_path)) in Hev.
Qed.

End SubmissionCases.

(** ** Errors of the library, and what follows a submission *)

Section SubmissionOutcomes.

Context {Picture : Type}.
Variable generate : WordCloud.args → string → string + Picture.
Variable to_file : Picture → string → option string.

Abbreviation press := (_generate_word_cloud_image generate to_file).

(** X14. An error of the word-cloud library is not caught: when the
    generator raises, or the writer does, the error leaves the submission,
    no dialog is shown, and the form is left as it was, its save path
    included; when the generator raises nothing is written. *)
Theorem library_error_escapes (form : Form) (image : Image.t) (err : string) :
  run_result (_build_image_object form) = Ok image →
  (generate (generator_config image) (Image.textual_content image) = inl err →
   press form
   = MkRun form
       (run_trace (_build_image_object form)
        ++ [Generate (generator_config image) (Image.textual_content image)])
       (Raise (LibraryError err)))
  ∧ (∀ picture,
       generate (generator_config image) (Image.textual_content image)
       = inr picture →
       to_file picture (Image.file_path image) = Some err →
       press form
       = MkRun form
           (run_trace (_build_image_object form)
            ++ [Generate (generator_config image)
                  (Image.textual_content image);
                ToFile (Image.file_path image)])
           (Raise (LibraryError err))).
Proof.
  rewrite build_result, build_trace. intros Hbuild.
  rewrite run_generate_word_cloud_image, Hbuild. cbn zeta. split.
  - by intros ->.
  - by intros picture -> ->.
Qed.

(** X15. After a successful submission the save path is gone: pressing
    Generate again, without choosing a path again, validates the same
    fields, stops at the file path, shows the error of the empty file
    name, and neither generates nor writes anything. *)
Theorem resubmission_needs_a_new_path (form : Form) (image : Image.t)
    (picture : Picture) :
  run_result (_build_image_object form) = Ok image →
  generate (generator_config image) (Image.textual_content image)
  = inr picture →
  to_file picture (Image.file_path image) = None →
  press (run_form (press form))
  = MkRun (run_form (press form))
      (trace_file_path form
       ++ [ShowError "error" "File name cannot be empty."])
      (Ok tt).
Proof.
  rewrite build_result. intros Hbuild Hgen Hfile.
  rewrite (run_generate_word_cloud_image generate to_file form), Hbuild.
  cbn zeta. rewrite Hgen, Hfile. cbn [run_form].
  apply first_failure_Ok in Hbuild as (_ & _ & Hpass).
  rewrite run_generate_word_cloud_image.
  assert (first_failure (set_file_path_field StringVar_new form)
          = (trace_file_path form,
             Raise (FormException "File name cannot be empty."))) as ->.
  { unfold first_failure.
    change (field_check (set_file_path_field StringVar_new form) TextualContent)
      with (field_check form TextualContent).
    change (field_check (set_file_path_field StringVar_new form) Width)
      with (field_check form Width).
    change (field_check (set_file_path_field StringVar_new form) Height)
      with (field_check form Height).
    change (field_check (set_file_path_field StringVar_new form) MaxWords)
      with (field_check form MaxWords).
    by rewrite (Hpass TextualContent), (Hpass Width), (Hpass Height),
      (Hpass MaxWords). }
  done.
Qed.

(** X16. Every submission ends in one of two ways: it returns and has
    shown exactly one dialog, the last thing it did, or it raises and has
    shown none. *)
Theorem one_dialog_or_an_exception (form : Form) :
  match run_result (press form) with
  | Ok _ =>
      length (filter (λ ev, dialog ev = true) (run_trace (press form))) = 1%nat
      ∧ ∃ ev, last (run_trace (press form)) = Some ev ∧ dialog ev = true
  | Raise _ => filter (λ ev, dialog ev = true) (run_trace (press form)) = []
  end.
Proof.
  rewrite run_generate_word_cloud_image. cbn zeta.
  pose proof (first_failure_no_dialog form) as Hnone.
  destruct ((first_failure form).2) as [image|e].
  - destruct (generate _ _) as [err|picture];
      [|destruct (to_file _ _) as [err|]];
      cbn [run_result run_trace]; rewrite filter_app, Hnone; [done..|].
    split; [done|]. eexists. split.
    { change [?a; ?b; ?c] with ([a; b] ++ [c]). rewrite app_assoc.
      apply last_snoc. }
    done.
  - destruct e; cbn [run_result run_trace]; try done.
    rewrite filter_app, Hnone. split; [done|].
    eexists. split; [apply last_snoc|done].
Qed.

End SubmissionOutcomes.

(** The scenario with a generator that fails, and with a writer that
    fails. *)
Lemma library_error_escapes_witness :
  _generate_word_cloud_image generate_failing to_file_ok form_example
  = MkRun form_example
      (run_trace (_build_image_object form_example)
       ++ [Generate (generator_config (configuration form_example))
             "hello world hello"])
      (Raise (LibraryError
                "We need at least 1 word to plot a word cloud, got 0."))
  ∧ _generate_word_cloud_image generate_ok to_file_failing form_example
    = MkRun form_example
        (run_trace (_build_image_object form_example)
         ++ [Generate (generator_config (configuration form_example))
               "hello world hello";
             ToFile "/tmp/out.png"])
        (Raise (LibraryError "Permission denied")).
Proof.
  split.
  - apply (proj1 (library_error_escapes generate_failing to_file_ok
                    form_example (configuration form_example) _ eq_refl)).
    reflexivity.
  - apply (proj2 (library_error_escapes generate_ok to_file_failing
                    form_example (configuration form_example) _ eq_refl) tt);
      reflexivity.
Defined.

(** The end-to-end scenario, submitted twice. *)
Lemma resubmission_needs_a_new_path_witness :
  run_result (_generate_word_cloud_image generate_ok to_file_ok form_example)
  = Ok tt
  ∧ _generate_word_cloud_image generate_ok to_file_ok
      (run_form
         (_generate_word_cloud_image generate_ok to_file_ok form_example))
    = MkRun
        (run_form
           (_generate_word_cloud_image generate_ok to_file_ok form_example))
        (trace_file_path form_example
         ++ [ShowError "error" "File name cannot be empty."])
        (Ok tt).
Proof.
  split; [reflexivity|].
  apply (resubmission_needs_a_new_path generate_ok to_file_ok form_example
           (configuration form_example) tt); reflexivity.
Defined.

(** The fresh form, submitted as it is. *)
Lemma blank_text_submission_witness :
  _generate_word_cloud_image generate_ok to_file_ok build
  = MkRun build
      [Read TextualContent; Validate TextualContent;
       ShowError "error" "Textual content cannot be empty."]
      (Ok tt).
Proof.
  apply (blank_text_submission generate_ok to_file_ok build). reflexivity.
Defined.

(** ** The save dialog *)

Section SaveDialog.

(** X17. The path the save dialog returns is kept as it is, without
    trimming, and is the path of the configuration and of the file that is
    written; the dialog changes the outcome of no other field.  When the
    dialog is cancelled and the other fields pass, a submission shows the
    error of the empty file name, and whatever the other fields hold it
    neither generates nor writes. *)
Theorem save_dialog_effect (path : string) (form : Form) :
  (∀ name, name ≠ FilePath →
           field_check (_ask_saveas_file_name path form) name
           = field_check form name)
  ∧ field_check (_ask_saveas_file_name path form) FilePath
    = FieldsValidator.validate_file_path path
  ∧ (∀ image,
       run_result (_build_image_object (_ask_saveas_file_name path form))
       = Ok image →
       Image.file_path image = path)
  ∧ (path = "" →
     ∀ (Picture : Type) (generate : WordCloud.args → string → string + Picture)
       (to_file : Picture → string → option string),
       (∀ ev, ev ∈ run_trace (_generate_word_cloud_image generate to_file
                                (_ask_saveas_file_name path form)) →
              outward ev = true → ∃ msg, ev = ShowError "error" msg)
       ∧ ((∀ name, name ≠ FilePath → field_check form name = Ok tt) →
          last (run_trace (_generate_word_cloud_image generate to_file
                             (_ask_saveas_file_name path form)))
          = Some (ShowError "error" "File name cannot be empty."))).
Proof.
  split; [by intros []|]. split; [done|]. split.
  - intros image. rewrite build_result.
    by intros (-> & _)%first_failure_Ok.
  - intros -> Picture generate to_file.
    assert (∃ e, run_result (_build_image_object (_ask_saveas_file_name "" form))
                 = Raise e
                 ∧ ((∀ name, name ≠ FilePath → field_check form name = Ok tt) →
                    e = FormException "File name cannot be empty."))
      as (e & Hbuild & He).
    { rewrite build_result. unfold first_failure.
      change (field_check (_ask_saveas_file_name "" form) TextualContent)
        with (field_check form TextualContent).
      change (field_check (_ask_saveas_file_name "" form) Width)
        with (field_check form Width).
      change (field_check (_ask_saveas_file_name "" form) Height)
        with (field_check form Height).
      change (field_check (_ask_saveas_file_name "" form) MaxWords)
        with (field_check form MaxWords).
      change (field_check (_ask_saveas_file_name "" form) FilePath)
        with (@Raise unit (FormException "File name cannot be empty.")).
      destruct (field_check form TextualContent) as [[]|e1] eqn:Ht;
        [|exists e1; split; [done|]; intros Hpass;
          by rewrite Hpass in Ht].
      destruct (field_check form Width) as [[]|e2] eqn:Hw;
        [|exists e2; split; [done|]; intros Hpass;
          by rewrite Hpass in Hw].
      destruct (field_check form Height) as [[]|e3] eqn:Hh;
        [|exists e3; split; [done|]; intros Hpass;
          by rewrite Hpass in Hh].
      destruct (field_check form MaxWords) as [[]|e4] eqn:Hm;
        [|exists e4; split; [done|]; intros Hpass;
          by rewrite Hpass in Hm].
      by eexists. }
    destruct (outcome_of_failed_validation generate to_file _ e Hbuild)
      as (Hout & Hshown).
    split; [exact Hout|].
    intros Hpass. destruct (Hshown _ (He Hpass)) as [_ ->]. apply last_snoc.
Qed.

End SaveDialog.

(** ** Which message a number gets *)

Section Messages.

Import FieldsValidator.

(** X18. A number that is not above zero is reported as such by every
    numeric validator, before the bounds are looked at; a number above
    zero and outside the bounds gets the message that names the bounds. *)
Theorem numeric_failure_messages (s : string) (n : Z) :
  Py.int s = Some n →
  (n ≤ 0 →
   validate_width s
   = Raise (FormException "Width cannot be less equal to zero.")
   ∧ validate_height s
     = Raise (FormException "Height cannot be less equal to zero.")
   ∧ validate_max_words s
     = Raise (FormException "Max Words cannot be less equal to zero."))
  ∧ (0 < n < MIN_WIDTH_IMAGE ∨ MAX_WIDTH_IMAGE < n →
     validate_width s
     = Raise (FormException "Width needs to be between 400 and 3000."))
  ∧ (0 < n < MIN_HEIGHT_IMAGE ∨ MAX_HEIGHT_IMAGE < n →
     validate_height s
     = Raise (FormException "Height needs to be between 200 and 1500."))
  ∧ (0 < n < MIN_NUM_WORDS ∨ MAX_NUM_WORDS < n →
     validate_max_words s
     = Raise (FormException "Max words needs to be between 200 and 400.")).
Proof.
  intros H.
  rewrite (validate_width_Some s n H), (validate_height_Some s n H),
    (validate_max_words_Some s n H).
  unfold MIN_WIDTH_IMAGE, MAX_WIDTH_IMAGE, MIN_HEIGHT_IMAGE,
    MAX_HEIGHT_IMAGE, MIN_NUM_WORDS, MAX_NUM_WORDS.
  repeat split; intros; repeat case_decide; try done; lia.
Qed.

Lemma numeric_failure_messages_witness :
  Py.int "-5" = Some (-5)
  ∧ validate_width "-5"
    = Raise (FormException "Width cannot be less equal to zero.")
  ∧ validate_max_words "-5"
    = Raise (FormException "Max Words cannot be less equal to zero.").
Proof.
  assert (Py.int "-5" = Some (-5)) as H by reflexivity.
  destruct (numeric_failure_messages "-5" (-5) H) as (Hzero & _).
  destruct Hzero as (Hw & _ & Hm); [lia|].
  split; [exact H|]. split; [exact Hw|exact Hm].
Defined.

End Messages.

(** The generator is reached: in the end-to-end scenario it is called
    with the configuration of the defaults. *)
Example generator_called_example :
  Generate (generator_config (configuration form_example)) "hello world hello"
  ∈ run_trace (_generate_word_cloud_image generate_ok to_file_ok form_example)
  ∧ WordCloud.stopwords (generator_config (configuration form_example)) = None
  ∧ WordCloud.background_color (generator_config (configuration form_example))
    = "black".
Proof.
  split; [|done].
  change (run_trace
            (_generate_word_cloud_image generate_ok to_file_ok form_example))
    with (run_trace (_build_image_object form_example)
          ++ [Generate (generator_config (configuration form_example))
                "hello world hello";
              ToFile "/tmp/out.png";
              ShowInfo "Success" (success_message "/tmp/out.png")]).
  apply elem_of_app. right. apply list_elem_of_here.
Qed.
